(** * Solana payment gateway: quote estimator, transaction builder, payment form

    A shallow embedding of [utils/solana.ts], [utils/jupiter.ts],
    [components/PaymentForm.tsx] and [App.tsx].

    JavaScript numbers are IEEE 754 binary64 values; they are embedded as
    Rocq's primitive floats, so every arithmetic expression of the source is
    evaluated with the rounding the program really performs.  Strings are
    [string], the token registry keeps its insertion order (an association
    list, since [Object.values] enumerates in that order), and the rate table
    is a finite map of finite maps. *)

From Stdlib Require Import ZArith QArith Qabs Floats Uint63 Lia.
From stdpp Require Import base option strings list gmap pretty.

#[local] Set Warnings "-inexact-float".
#[local] Open Scope Z_scope.

(** ** JavaScript numbers *)

Module JS.

Definition number := float.

(** [ToBoolean] on a number: [0], [-0] and [NaN] are falsy. *)
Definition truthy (x : number) : bool :=
  negb (PrimFloat.is_zero x || PrimFloat.is_nan x).

(** [ToBoolean] on a string: only the empty string is falsy. *)
Definition truthy_string (s : string) : bool :=
  negb (String.eqb s "").

(** [a > b] on numbers. *)
Definition gt (a b : number) : bool := PrimFloat.ltb b a.

(** An integer of magnitude below [2^63] as a number (exact below [2^53]). *)
Definition of_Z (z : Z) : number :=
  if z <? 0 then PrimFloat.opp (PrimFloat.of_uint63 (Uint63.of_Z (- z)))
  else PrimFloat.of_uint63 (Uint63.of_Z z).

(** The signed mantissa of a finite, non-zero binary64 value
    [(-1)^s * m * 2^e]. *)
Definition signed (s : bool) (m : positive) : Z :=
  if s then Z.neg m else Z.pos m.

(** The integer [Math.floor] yields on such a value: rounding is toward
    minus infinity. *)
Definition floor_int (s : bool) (m : positive) (e : Z) : Z :=
  if 0 <=? e then signed s m * 2 ^ e else signed s m / 2 ^ (- e).

(** The integer [Math.floor(x)] denotes, which is also the value of
    [BigInt(Math.floor(x))]; there is none for an infinity or [NaN], on
    which [BigInt] throws a [RangeError]. *)
Definition floor_integer (x : number) : option Z :=
  match Prim2SF x with
  | S754_zero _ => Some 0
  | S754_finite s m e => Some (floor_int s m e)
  | _ => None
  end.

(** [Math.floor].  Zeros, infinities and [NaN] are returned unchanged, and
    so is a finite value with a non-negative exponent, which is already an
    integer. *)
Definition Math_floor (x : number) : number :=
  match Prim2SF x with
  | S754_finite s m e => if 0 <=? e then x else of_Z (floor_int s m e)
  | _ => x
  end.

(** [10 ** d] for a non-negative integer [d].  The products are exact up to
    [10 ** 22], which covers every decimal precision of the registry. *)
Definition pow10 (d : nat) : number :=
  Nat.iter d (fun x => PrimFloat.mul x 10%float) 1%float.

End JS.

Import JS.

(** ** types.ts *)

Inductive PaymentStatus := pending | processing | completed | failed.

Record TokenInfo := {
  symbol : string;
  name : string;
  mint : string;
  decimals : nat;
  logoURI : option string
}.

Record Payment := {
  id : string;
  amount : number;
  token : string;
  status : PaymentStatus;
  timestamp : N;
  merchantId : string;
  customerWallet : option string;
  txSignature : option string
}.

Record SwapResult := {
  inputAmount : number;
  outputAmount : number;
  inputToken : string;
  outputToken : string;
  swapTxSignature : string;
  fee : number
}.

(** ** utils/solana.ts: the token registry *)

Definition logo (m : string) : option string :=
  Some ("https://raw.githubusercontent.com/solana-labs/token-list/main/assets/mainnet/"
          +:+ m +:+ "/logo.png").

Definition SOL : TokenInfo :=
  {| symbol := "SOL"; name := "Solana";
     mint := "So11111111111111111111111111111111111111112";
     decimals := 9;
     logoURI := logo "So11111111111111111111111111111111111111112" |}.

Definition USDC : TokenInfo :=
  {| symbol := "USDC"; name := "USD Coin";
     mint := "EPjFWdd5AufqSSqeM2qN1xzybapC8G4wEGGkZwyTDt1v";
     decimals := 6;
     logoURI := logo "EPjFWdd5AufqSSqeM2qN1xzybapC8G4wEGGkZwyTDt1v" |}.

Definition USDT : TokenInfo :=
  {| symbol := "USDT"; name := "Tether";
     mint := "Es9vMFrzaCERmJfrF4H2FYD4KCoNkY11McCe8BenwNYB";
     decimals := 6;
     logoURI := logo "Es9vMFrzaCERmJfrF4H2FYD4KCoNkY11McCe8BenwNYB" |}.

Definition BONK : TokenInfo :=
  {| symbol := "BONK"; name := "Bonk";
     mint := "DezXAZ8z7PnrnRJjz3wXBoRgixCa6xjnB7YaB1pPB263";
     decimals := 5;
     logoURI := logo "DezXAZ8z7PnrnRJjz3wXBoRgixCa6xjnB7YaB1pPB263" |}.

Definition JUP : TokenInfo :=
  {| symbol := "JUP"; name := "Jupiter";
     mint := "JUPyiwrYJFskUPiHa7hkeR8VUtAeFoSYbKedZNsDvCN";
     decimals := 6;
     logoURI := logo "JUPyiwrYJFskUPiHa7hkeR8VUtAeFoSYbKedZNsDvCN" |}.

(** [TOKENS], keyed by symbol, in the order the object literal lists them. *)
Definition TOKENS : list (string * TokenInfo) :=
  [("SOL", SOL); ("USDC", USDC); ("USDT", USDT); ("BONK", BONK); ("JUP", JUP)].

Definition Object_values {A} (o : list (string * A)) : list A := o.*2.

(** [Object.values(TOKENS).find(t => t.mint === tokenMint)] *)
Definition find_by_mint (tokenMint : string) : option TokenInfo :=
  List.find (fun t => String.eqb (mint t) tokenMint) (Object_values TOKENS).

(** ** utils/jupiter.ts: the mock exchange rates *)

Definition row (l : list (string * number)) : gmap string number := list_to_map l.

Definition rates : gmap string (gmap string number) :=
  list_to_map
    [("SOL",  row [("USDC", 150.25%float); ("USDT", 150.15%float); ("BONK", 1000000%float)]);
     ("USDC", row [("SOL", (1 / 150.25)%float); ("USDT", 0.998%float); ("BONK", 6500%float)]);
     ("USDT", row [("SOL", (1 / 150.15)%float); ("USDC", 1.002%float); ("BONK", 6520%float)]);
     ("BONK", row [("SOL", 0.000001%float); ("USDC", 0.00015%float); ("USDT", 0.00015%float)])].

(** [rates[a]?.[b]]: [None] stands for [undefined].  This is the lookup
    among the keys the literal lists.  It is the lookup of the source for
    symbols that name no property objects inherit ([constructor],
    [toString], ...), as the five registry symbols and the empty symbol do
    not; the statements below are about those symbols only, and say
    nothing of a record that carries another symbol. *)
Definition entry (a b : string) : option number :=
  rates !! a ≫= (λ r, r !! b).

(** The test [if (rates[a]?.[b])]: the entry is there and is a truthy number. *)
Definition entry_truthy (a b : string) : bool :=
  match entry a b with
  | Some r => truthy r
  | None => false
  end.

(** A use of [rates[a][b]] behind a successful test. *)
Definition entry_value (a b : string) : number :=
  default PrimFloat.nan (entry a b).

Definition getMockExchangeRate (fromSymbol toSymbol : string) : number :=
  if entry_truthy fromSymbol toSymbol then
    entry_value fromSymbol toSymbol
  else if entry_truthy toSymbol fromSymbol then
    (1 / entry_value toSymbol fromSymbol)%float
  else if entry_truthy fromSymbol "USDC" && entry_truthy "USDC" toSymbol then
    (entry_value fromSymbol "USDC" * entry_value "USDC" toSymbol)%float
  else
    1%float.

(** ** Exceptions

    A function that may [throw] returns a [result]; [let* x := c in k] is the
    sequencing of [await]/statement order, and a [Throw] skips the rest. *)

Inductive Error :=
| RpcError                          (* a rejected call to the cluster *)
| InvalidPublicKey (s : string)     (* [new PublicKey(s)] on a malformed key *)
| OwnerOffCurve                     (* [getAssociatedTokenAddress] refused the owner *)
| TokenInfoNotFound (m : string)    (* "Token info not found for mint: ..." *)
| EncodingError                     (* an amount an instruction cannot carry *)
| SendFailed.                       (* "Failed to send transaction" *)

Inductive result (A : Type) :=
| Ok (a : A)
| Throw (e : Error).
Arguments Ok {A} a.
Arguments Throw {A} e.

Definition bind {A B} (c : result A) (k : A -> result B) : result B :=
  match c with
  | Ok a => k a
  | Throw e => Throw e
  end.

Notation "'let*' x ':=' c 'in' k" := (bind c (fun x => k))
  (at level 10, x name, c at level 100, k at level 200).

Definition of_option {A} (o : option A) (e : Error) : result A :=
  match o with
  | Some a => Ok a
  | None => Throw e
  end.

(** ** utils/jupiter.ts: quotes and swaps *)

Module PlatformFee.
Record t := { amount : number; feeBps : number }.
End PlatformFee.

Module SwapInfo.
Record t := {
  ammKey : string;
  label : string;
  inputMint : string;
  outputMint : string;
  inAmount : number;
  outAmount : number;
  feeAmount : number;
  feeMint : string
}.
End SwapInfo.

(** The quote object.  The fields that only [getQuote] fills are optional:
    the quote the payment form builds for a same-token payment lacks them. *)
Record Quote := {
  inputMint : string;
  outputMint : string;
  inAmount : number;
  outAmount : number;
  otherAmountThreshold : option number;
  swapMode : option string;
  slippageBps : option number;
  platformFee : PlatformFee.t;
  priceImpactPct : number;
  routePlan : list SwapInfo.t;
  contextSlot : option N
}.

(** [rnd] is the text [Math.random().toString(36).substring(2, 10)].
    Within the symbols [entry] covers nothing in the [try] block throws, so
    the [catch] ("Failed to get quote from Jupiter") is not reached. *)
Definition getQuote (inputToken outputToken : TokenInfo) (amount : number)
    (rnd : string) : result Quote :=
  let mockRate := getMockExchangeRate (symbol inputToken) (symbol outputToken) in
  let outputAmount := (amount * mockRate)%float in
  let fee := (amount * 0.003)%float in
  Ok {| inputMint := mint inputToken;
        outputMint := mint outputToken;
        inAmount := (amount * pow10 (decimals inputToken))%float;
        outAmount := Math_floor (outputAmount * pow10 (decimals outputToken))%float;
        otherAmountThreshold :=
          Some (Math_floor (outputAmount * 0.995 * pow10 (decimals outputToken))%float);
        swapMode := Some "ExactIn";
        slippageBps := Some 50%float;
        platformFee :=
          {| PlatformFee.amount := Math_floor (fee * pow10 (decimals inputToken))%float;
             PlatformFee.feeBps := 30%float |};
        priceImpactPct := 0.1%float;
        routePlan :=
          [ {| SwapInfo.ammKey := "JUP" +:+ rnd;
               SwapInfo.label := "Jupiter Aggregator";
               SwapInfo.inputMint := mint inputToken;
               SwapInfo.outputMint := mint outputToken;
               SwapInfo.inAmount := (amount * pow10 (decimals inputToken))%float;
               SwapInfo.outAmount :=
                 Math_floor (outputAmount * pow10 (decimals outputToken))%float;
               SwapInfo.feeAmount := Math_floor (fee * pow10 (decimals inputToken))%float;
               SwapInfo.feeMint := mint inputToken |} ];
        contextSlot := Some 234567890%N |}.

(** [rnd] is the text [Math.random().toString(36).substring(2, 15)]; the
    caller passes [50] for [slippageBps] when it leaves the argument out. *)
Definition executeSwap (inputToken outputToken : TokenInfo) (amount : number)
    (slippageBps : number) (rnd : string) : result SwapResult :=
  let mockRate := getMockExchangeRate (symbol inputToken) (symbol outputToken) in
  let outputAmount := (amount * mockRate * (1 - slippageBps / 10000))%float in
  Ok {| inputAmount := amount;
        outputAmount := outputAmount;
        inputToken := symbol inputToken;
        outputToken := symbol outputToken;
        swapTxSignature := "mock-swap-tx-" +:+ rnd;
        fee := (amount * 0.003)%float |}.

(** ** utils/solana.ts: the transaction builder *)

(** A public key, by its base58 text. *)
Definition PublicKey := string.

(** What the cluster and the key library answer during one call.  These are
    the collaborators of [@solana/web3.js] and [@solana/spl-token]; the
    builder only sequences them. *)
Record World := {
  (** [connection.getLatestBlockhash('confirmed')], [None] when it rejects *)
  getLatestBlockhash : option (string * N);
  (** whether [new PublicKey(s)] accepts [s] *)
  isPublicKey : string -> bool;
  (** [getAssociatedTokenAddress(mint, owner)], [None] when it throws *)
  getAssociatedTokenAddress : PublicKey -> PublicKey -> option PublicKey;
  (** whether [getAccount(connection, address)] resolves; the source reads a
      rejection as "the account does not exist" *)
  getAccount : PublicKey -> bool;
  (** the signature [mockSendTransaction] encodes from 64 random bytes,
      [None] when the encoding throws *)
  randomSignature : option string;
  (** [Math.random().toString(36)] cut as [executeSwap] cuts it *)
  random36 : string;
  (** [Date.now()] when the payment id is made, and when the record is made *)
  clockAtSubmit : N;
  clockAtRecord : N;
  (** what [SystemProgram.transfer] and [createTransferInstruction] write
      into their 64-bit field for an integer that is no count below [2^53],
      [None] when they throw *)
  encodeLamports : Z -> option N;
  encodeAmount : Z -> option N
}.

Definition new_PublicKey (w : World) (s : string) : result PublicKey :=
  if isPublicKey w s then Ok s else Throw (InvalidPublicKey s).

(** Constants of [@solana/web3.js] and [@solana/spl-token]. *)
Definition LAMPORTS_PER_SOL : number := 1000000000%float.
Definition TOKEN_PROGRAM_ID : PublicKey := "TokenkegQfeZyiNwAJbNbGKPFXCWuBvf9Ss623VQ5DA".

Inductive Instruction :=
| SetComputeUnitLimit (units : N)
| SystemTransfer (fromPubkey toPubkey : PublicKey) (lamports : N)
| CreateAssociatedTokenAccount (payer associatedToken owner mintKey : PublicKey)
| TokenTransfer (source destination owner : PublicKey) (amount : N)
    (multiSigners : list PublicKey) (programId : PublicKey).

Record Transaction := {
  feePayer : PublicKey;
  blockhash : string;
  lastValidBlockHeight : N;
  instructions : list Instruction
}.

(** [transaction.add(i)] *)
Definition add (i : Instruction) (t : Transaction) : Transaction :=
  {| feePayer := feePayer t; blockhash := blockhash t;
     lastValidBlockHeight := lastValidBlockHeight t;
     instructions := instructions t ++ [i] |}.

(** The unsigned 64-bit count an instruction carries for the argument
    [Math.floor(x)].  Both libraries convert the number with [BigInt] and
    write the result into a 64-bit field: a non-negative integer below
    [2^53] is carried as it is; an infinity or [NaN] makes [BigInt] throw;
    for any other integer the field is what the library's encoder makes of
    it. *)
Definition encode_floor (encoder : Z -> option N) (x : number) : result N :=
  match floor_integer x with
  | Some z =>
      if (0 <=? z) && (z <? 2 ^ 53) then Ok (Z.to_N z)
      else of_option (encoder z) EncodingError
  | None => Throw EncodingError
  end.

Definition createPaymentTransaction (w : World) (amount : number)
    (tokenMint : string) (fromWallet toWallet : PublicKey) : result Transaction :=
  let* bh := of_option (getLatestBlockhash w) RpcError in
  let transaction :=
    {| feePayer := fromWallet; blockhash := bh.1;
       lastValidBlockHeight := bh.2; instructions := [] |} in
  let transaction := add (SetComputeUnitLimit 200000) transaction in
  if String.eqb tokenMint (mint SOL) then
    let* lamports := encode_floor (encodeLamports w) (amount * LAMPORTS_PER_SOL)%float in
    Ok (add (SystemTransfer fromWallet toWallet lamports) transaction)
  else
    let* mintKey := new_PublicKey w tokenMint in
    let* fromTokenAccount := of_option (getAssociatedTokenAddress w mintKey fromWallet) OwnerOffCurve in
    let* mintKey' := new_PublicKey w tokenMint in
    let* toTokenAccount := of_option (getAssociatedTokenAddress w mintKey' toWallet) OwnerOffCurve in
    let transaction :=
      if getAccount w toTokenAccount then transaction
      else add (CreateAssociatedTokenAccount fromWallet toTokenAccount toWallet tokenMint)
             transaction in
    let* tokenInfo := of_option (find_by_mint tokenMint) (TokenInfoNotFound tokenMint) in
    let* units := encode_floor (encodeAmount w) (amount * pow10 (decimals tokenInfo))%float in
    Ok (add (TokenTransfer fromTokenAccount toTokenAccount fromWallet units
               [] TOKEN_PROGRAM_ID) transaction).

Definition mockSendTransaction (w : World) (transaction : Transaction) : result string :=
  of_option (randomSignature w) SendFailed.

(** ** components/PaymentForm.tsx *)

Module FormStatus.
Inductive t := idle | quoting | processing | confirming | completed | failed.
End FormStatus.

(** The texts shown by [setError]. *)
Inductive Message :=
| ConnectWalletFirst
| NoQuote
| InsufficientBalance (balance : number) (sym : string)
| QuoteFailed
| PaymentFailed.

Record Props := {
  merchantAddress : string;
  preferredToken : string
}.

(** The state cells of the component that the quote effect and
    [handleSubmit] read or write. *)
Module Form.
Record t := {
  amount : number;
  selectedToken : string;
  isProcessing : bool;
  quote : option Quote;
  error : option Message;
  success : bool;
  tokenBalance : option number;
  paymentStatus : FormStatus.t
}.

Definition setQuote (q : option Quote) (f : t) : t :=
  {| amount := amount f; selectedToken := selectedToken f;
     isProcessing := isProcessing f; quote := q; error := error f;
     success := success f; tokenBalance := tokenBalance f;
     paymentStatus := paymentStatus f |}.

Definition setError (e : option Message) (f : t) : t :=
  {| amount := amount f; selectedToken := selectedToken f;
     isProcessing := isProcessing f; quote := quote f; error := e;
     success := success f; tokenBalance := tokenBalance f;
     paymentStatus := paymentStatus f |}.

Definition setSuccess (b : bool) (f : t) : t :=
  {| amount := amount f; selectedToken := selectedToken f;
     isProcessing := isProcessing f; quote := quote f; error := error f;
     success := b; tokenBalance := tokenBalance f;
     paymentStatus := paymentStatus f |}.

Definition setIsProcessing (b : bool) (f : t) : t :=
  {| amount := amount f; selectedToken := selectedToken f;
     isProcessing := b; quote := quote f; error := error f;
     success := success f; tokenBalance := tokenBalance f;
     paymentStatus := paymentStatus f |}.

Definition setPaymentStatus (s : FormStatus.t) (f : t) : t :=
  {| amount := amount f; selectedToken := selectedToken f;
     isProcessing := isProcessing f; quote := quote f; error := error f;
     success := success f; tokenBalance := tokenBalance f;
     paymentStatus := s |}.
End Form.

(** [Object.values(TOKENS).find(...) || TOKENS.SOL] and [... || TOKENS.USDC] *)
Definition selectedTokenInfo (f : Form.t) : TokenInfo :=
  default SOL (find_by_mint (Form.selectedToken f)).

Definition preferredTokenInfo (p : Props) : TokenInfo :=
  default USDC (find_by_mint (preferredToken p)).

(** The quote effect, once its debounce timer fires. *)
Definition fetchQuote (p : Props) (rnd : string) (f : Form.t) : Form.t :=
  if gt (Form.amount f) 0%float
     && truthy_string (Form.selectedToken f)
     && truthy_string (preferredToken p)
  then
    if String.eqb (Form.selectedToken f) (preferredToken p) then
      Form.setQuote
        (Some {| inputMint := Form.selectedToken f;
                 outputMint := preferredToken p;
                 inAmount := (Form.amount f * pow10 (decimals (selectedTokenInfo f)))%float;
                 outAmount := (Form.amount f * pow10 (decimals (preferredTokenInfo p)))%float;
                 otherAmountThreshold := None;
                 swapMode := None;
                 slippageBps := None;
                 platformFee :=
                   {| PlatformFee.amount := 0%float; PlatformFee.feeBps := 0%float |};
                 priceImpactPct := 0%float;
                 routePlan := [];
                 contextSlot := None |}) f
    else
      let f := Form.setPaymentStatus FormStatus.quoting f in
      let f :=
        match getQuote (selectedTokenInfo f) (preferredTokenInfo p) (Form.amount f) rnd with
        | Ok quoteResult => Form.setError None (Form.setQuote (Some quoteResult) f)
        | Throw _ => Form.setQuote None (Form.setError (Some QuoteFailed) f)
        end in
      Form.setPaymentStatus FormStatus.idle f
  else f.

(** The body of the [try] block of [handleSubmit]: the payment it hands to
    [onPaymentComplete], or the exception that reaches the [catch]. *)
Definition submitFlow (p : Props) (publicKey : PublicKey) (w : World) (f : Form.t)
    : result Payment :=
  let paymentId := "payment-" +:+ pretty (clockAtSubmit w) in
  if negb (String.eqb (Form.selectedToken f) (preferredToken p)) then
    let* swapResult :=
      executeSwap (selectedTokenInfo f) (preferredTokenInfo p) (Form.amount f)
        50%float (random36 w) in
    let* merchant := new_PublicKey w (merchantAddress p) in
    let* transaction :=
      createPaymentTransaction w (outputAmount swapResult) (preferredToken p)
        publicKey merchant in
    let* txSignature := mockSendTransaction w transaction in
    Ok {| id := paymentId;
          amount := outputAmount swapResult;
          token := preferredToken p;
          status := completed;
          timestamp := clockAtRecord w;
          merchantId := merchantAddress p;
          customerWallet := Some publicKey;
          txSignature := Some txSignature |}
  else
    let* merchant := new_PublicKey w (merchantAddress p) in
    let* transaction :=
      createPaymentTransaction w (Form.amount f) (Form.selectedToken f)
        publicKey merchant in
    let* txSignature := mockSendTransaction w transaction in
    Ok {| id := paymentId;
          amount := Form.amount f;
          token := Form.selectedToken f;
          status := completed;
          timestamp := clockAtRecord w;
          merchantId := merchantAddress p;
          customerWallet := Some publicKey;
          txSignature := Some txSignature |}.

(** The guard [tokenBalance !== null && amount > tokenBalance]: the balance
    that is exceeded, if any. *)
Definition exceededBalance (f : Form.t) : option number :=
  match Form.tokenBalance f with
  | Some balance => if gt (Form.amount f) balance then Some balance else None
  | None => None
  end.

(** [handleSubmit]: the state the form is left in, and the payments handed
    to [onPaymentComplete] (none or one). *)
Definition handleSubmit (p : Props) (publicKey : option PublicKey) (w : World)
    (f : Form.t) : Form.t * list Payment :=
  match publicKey with
  | None => (Form.setError (Some ConnectWalletFirst) f, [])
  | Some publicKey =>
    match Form.quote f with
    | None => (Form.setError (Some NoQuote) f, [])
    | Some _ =>
      match exceededBalance f with
      | Some balance =>
          (Form.setError
             (Some (InsufficientBalance balance (symbol (selectedTokenInfo f)))) f, [])
      | None =>
          let f := Form.setPaymentStatus FormStatus.processing
                     (Form.setSuccess false (Form.setError None
                        (Form.setIsProcessing true f))) in
          match submitFlow p publicKey w f with
          | Ok payment =>
              (Form.setIsProcessing false
                 (Form.setSuccess true
                    (Form.setPaymentStatus FormStatus.completed f)), [payment])
          | Throw _ =>
              (Form.setIsProcessing false
                 (Form.setPaymentStatus FormStatus.failed
                    (Form.setError (Some PaymentFailed) f)), [])
          end
      end
    end
  end.

(** ** App.tsx *)

Definition merchant_id : string := "merchant-1".
Definition merchant_walletAddress : string := "5YNmS1R9nNSCDzb5a7mMJ1dwK9uHeAAF4CmPEwKgVWc8".

Definition merchantProps : Props :=
  {| merchantAddress := merchant_walletAddress; preferredToken := mint USDC |}.

(** The list [useState] starts from; [now] is [Date.now()] at the first render. *)
Definition initialPayments (now : N) : list Payment :=
  [ {| id := "payment-1"; amount := 10.5%float; token := mint USDC;
       status := completed; timestamp := (now - 86400000)%N;
       merchantId := merchant_id;
       customerWallet := Some "7UX2i7SucgLMQcfZ75s3VXmZZY4YRUyJN9X1RgfMoDUi";
       txSignature := Some "5SHVFJBFQcNNrAhAYbBbhy9NJ5AciWxSQqgLele8EJpjvuYVJ2v2odSfZTaZJxgLYSS3uUdwDwqQD1rhNAhzU9Vw" |};
    {| id := "payment-2"; amount := 5.25%float; token := mint USDC;
       status := completed; timestamp := (now - 43200000)%N;
       merchantId := merchant_id;
       customerWallet := Some "2qXdVr7JKRm4QfVA11vZ6FHPqvZXP4HxMrmdRP7isnKW";
       txSignature := Some "3E1Ym2KLRxcALYVBCKPMvXiXBNwzMHia3vLZQKkELwvLCHqu5gVEoHaVo9kj9ZpXmD9YBpKxg4UWjcyYYCPxSvfy" |};
    {| id := "payment-3"; amount := 2.75%float; token := mint SOL;
       status := completed; timestamp := (now - 21600000)%N;
       merchantId := merchant_id;
       customerWallet := Some "9ZNTfG4NyQgxy2SWjSiQoUyBPEvXT2xo7fKc5hPYYJ7b";
       txSignature := Some "4vJ5SrVB3pS6zm3VoqDpxJ7p1T5KpQ6zrz6x9wQZGmBvMX8vN9n3wPtQYKTcUy2UjnFqVuXhbr2qSxNVnqrWWPPZ" |} ].

(** [handlePaymentComplete], as made by a render whose [payments] cell reads
    [payments]: the list it passes to [setPayments]. *)
Definition handlePaymentComplete (payments : list Payment) (payment : Payment)
    : list Payment :=
  payments ++ [payment].

(** The [payments] cell together with the submission that is under way.
    A submission holds the [onPaymentComplete] it was started with, that is
    the handler of the render current at the click, which closes over the
    list of that render.  While a submission is under way the controls of
    the form are disabled, and no second form can be mounted (the merchant
    view names a component the file neither imports nor defines, so it
    cannot render): a submission starts only when none is under way. *)
Record App := {
  payments : list Payment;
  inflight : list (list Payment)
}.

Inductive Event :=
| Submit                                  (* a form starts [handleSubmit] *)
| Settle (i : nat) (out : list Payment).  (* submission [i] ends with its payments *)

Definition step (a : App) (e : Event) : App :=
  match e with
  | Submit =>
      match inflight a with
      | [] => {| payments := payments a; inflight := [payments a] |}
      | _ :: _ => a
      end
  | Settle i out =>
      match inflight a !! i with
      | Some closed =>
          {| payments :=
               match out with
               | [] => payments a
               | payment :: _ => handlePaymentComplete closed payment
               end;
             inflight := delete i (inflight a) |}
      | None => a
      end
  end.

Definition run (a : App) (es : list Event) : App := foldl step a es.

(** ** utils/jupiter.ts: the token list and the routes *)

Definition getAllTokens : result (list TokenInfo) := Ok (Object_values TOKENS).

Module LpFee.
Record t := { amount : number; mint : string; pct : number }.
End LpFee.

Module MarketInfo.
Record t := {
  id : string;
  label : string;
  inputMint : string;
  outputMint : string;
  notEnoughLiquidity : bool;
  inAmount : number;
  outAmount : number;
  priceImpactPct : number;
  lpFee : LpFee.t
}.
End MarketInfo.

Module Route.
Record t := {
  inAmount : number;
  outAmount : number;
  amount : number;
  slippageBps : number;
  marketInfos : list MarketInfo.t
}.
End Route.

(** [Object.values(TOKENS).find(t => t.mint === m)?.symbol || ''] *)
Definition symbol_of_mint (m : string) : string :=
  match find_by_mint m with
  | Some t => if truthy_string (symbol t) then symbol t else ""
  | None => ""
  end.

(** [rnd] is the text [Math.random().toString(36).substring(2, 10)]; the
    result is the [routes] array of the object returned. *)
Definition getRoutes (inputMint outputMint : string) (amount slippageBps : number)
    (rnd : string) : result (list Route.t) :=
  Ok [ {| Route.inAmount := amount;
          Route.outAmount :=
            (amount * getMockExchangeRate (symbol_of_mint inputMint)
                        (symbol_of_mint outputMint))%float;
          Route.amount := amount;
          Route.slippageBps := slippageBps;
          Route.marketInfos :=
            [ {| MarketInfo.id := "JUP" +:+ rnd;
                 MarketInfo.label := "Jupiter Aggregator";
                 MarketInfo.inputMint := inputMint;
                 MarketInfo.outputMint := outputMint;
                 MarketInfo.notEnoughLiquidity := false;
                 MarketInfo.inAmount := amount;
                 MarketInfo.outAmount :=
                   (amount * getMockExchangeRate (symbol_of_mint inputMint)
                               (symbol_of_mint outputMint))%float;
                 MarketInfo.priceImpactPct := 0.1%float;
                 MarketInfo.lpFee :=
                   {| LpFee.amount := (amount * 0.003)%float;
                      LpFee.mint := inputMint;
                      LpFee.pct := 0.3%float |} |} ] |} ].

(** ** utils/solana.ts: balances *)

(** What the cluster answers to the balance requests. *)
Record Ledger := {
  (** [connection.getBalance(address)] in lamports, [None] when it rejects *)
  getBalance : PublicKey -> option number;
  (** [Number(account.amount)] of the account [getAccount] resolves to,
      [None] when [getAccount] rejects *)
  tokenAmount : PublicKey -> option number
}.

(** [getTokenBalance]; [None] stands for the one error its outer [catch]
    throws, "Failed to get token balance". *)
Definition getTokenBalance (w : World) (l : Ledger) (walletAddress : PublicKey)
    (tokenMint : string) : option number :=
  match find_by_mint tokenMint with
  | None => None
  | Some tokenInfo =>
      if String.eqb tokenMint (mint SOL) then
        match getBalance l walletAddress with
        | Some balance => Some (balance / LAMPORTS_PER_SOL)%float
        | None => None
        end
      else if isPublicKey w tokenMint then
        match getAssociatedTokenAddress w tokenMint walletAddress with
        | Some tokenAccount =>
            match tokenAmount l tokenAccount with
            | Some held => Some (held / pow10 (decimals tokenInfo))%float
            | None => Some 0%float
            end
        | None => None
        end
      else None
  end.

(** ** components/PaymentForm.tsx: the controls *)

Definition setAmount (a : number) (f : Form.t) : Form.t :=
  {| Form.amount := a; Form.selectedToken := Form.selectedToken f;
     Form.isProcessing := Form.isProcessing f; Form.quote := Form.quote f;
     Form.error := Form.error f; Form.success := Form.success f;
     Form.tokenBalance := Form.tokenBalance f;
     Form.paymentStatus := Form.paymentStatus f |}.

(** The amount input: [setAmount(parseFloat(e.target.value) || 0)], on the
    number [parseFloat] returned. *)
Definition onAmountChange (parsed : number) (f : Form.t) : Form.t :=
  setAmount (if truthy parsed then parsed else 0%float) f.

Definition resetForm (f : Form.t) : Form.t :=
  setAmount 1%float
    (Form.setPaymentStatus FormStatus.idle (Form.setSuccess false f)).

(** The [disabled] attribute of the submit button:
    [isProcessing || !publicKey || !quote || paymentStatus === 'quoting']. *)
Definition submitDisabled (publicKey : option PublicKey) (f : Form.t) : bool :=
  Form.isProcessing f
  || match publicKey with Some _ => false | None => true end
  || match Form.quote f with Some _ => false | None => true end
  || match Form.paymentStatus f with FormStatus.quoting => true | _ => false end.

(** * Vocabulary of the statements *)

(** The tokens and the symbols of the registry. *)
Definition registered (t : TokenInfo) : Prop := In t (Object_values TOKENS).

Definition symbols : list string := symbol <$> Object_values TOKENS.

(** The rate table, entry by entry. *)
Definition rate_entries : list (string * string * number) :=
  [("SOL", "USDC", 150.25%float); ("SOL", "USDT", 150.15%float);
   ("SOL", "BONK", 1000000%float);
   ("USDC", "SOL", (1 / 150.25)%float); ("USDC", "USDT", 0.998%float);
   ("USDC", "BONK", 6500%float);
   ("USDT", "SOL", (1 / 150.15)%float); ("USDT", "USDC", 1.002%float);
   ("USDT", "BONK", 6520%float);
   ("BONK", "SOL", 0.000001%float); ("BONK", "USDC", 0.00015%float);
   ("BONK", "USDT", 0.00015%float)].

(** The resolution order in the words of the specification: the direct
    entry if present, else the reciprocal of the inverse entry if present,
    else the product of the two legs through USDC if both exist, else 1. *)
Definition rate_by_spec (fromSymbol toSymbol : string) : number :=
  match entry fromSymbol toSymbol with
  | Some direct => direct
  | None =>
    match entry toSymbol fromSymbol with
    | Some inverse => (1 / inverse)%float
    | None =>
      match entry fromSymbol "USDC", entry "USDC" toSymbol with
      | Some leg1, Some leg2 => (leg1 * leg2)%float
      | _, _ => 1%float
      end
    end
  end.

(** The rational number a finite binary64 value stands for. *)
Definition exact (x : number) : option Q :=
  match Prim2SF x with
  | S754_zero _ => Some 0%Q
  | S754_finite s m e =>
      Some (if 0 <=? e then inject_Z (signed s m * 2 ^ e)
            else Qmake (signed s m) (Z.to_pos (2 ^ (- e))))
  | _ => None
  end.

(** [x] is the reciprocal of [y] up to the relative error [tol]:
    [|x * y - 1| <= tol], computed on the exact values. *)
Definition reciprocal_within (tol : Q) (x y : number) : bool :=
  match exact x, exact y with
  | Some qx, Some qy => Qle_bool (Qabs (qx * qy - 1)) tol
  | _, _ => false
  end.

(** One unit in the last place of a binary64 value near 1. *)
Definition ulp : Q := Qmake 1 (2 ^ 52).

(** A form as it is once mounted, with a chosen input token, amount and
    fetched balance. *)
Definition mountedForm (selected : string) (amount : number)
    (balance : option number) : Form.t :=
  {| Form.amount := amount; Form.selectedToken := selected;
     Form.isProcessing := false; Form.quote := None; Form.error := None;
     Form.success := false; Form.tokenBalance := balance;
     Form.paymentStatus := FormStatus.idle |}.

Definition customer : PublicKey := "7UX2i7SucgLMQcfZ75s3VXmZZY4YRUyJN9X1RgfMoDUi".

(** A receiving address that is a point of the curve, as [customer] is and
    as the merchant address of [App.tsx] is not. *)
Definition receiver : PublicKey := "9ZNTfG4NyQgxy2SWjSiQoUyBPEvXT2xo7fKc5hPYYJ7b".

(** A shop that is paid at [receiver]. *)
Definition shop : Props :=
  {| merchantAddress := receiver; preferredToken := mint USDC |}.

(** A token record from outside the registry: USDC bridged from another
    chain, which goes by the same symbol under a mint of its own. *)
Definition bridgedUSDC : TokenInfo :=
  {| symbol := "USDC"; name := "USD Coin (Wormhole)";
     mint := "A9mUU4qviSctJVPJdBJWkb28deg915LYJKrzQ19ji3FM";
     decimals := 6; logoURI := None |}.

(** The texts used here that are the base58 form of 32 bytes. *)
Definition knownKeys : list string :=
  customer :: receiver :: merchant_walletAddress :: mint bridgedUSDC
  :: (mint <$> Object_values TOKENS).

(** The owners holding addresses are derived for: [getAssociatedTokenAddress]
    refuses an owner that is no point of the curve. *)
Definition onCurve (owner : PublicKey) : bool :=
  String.eqb owner customer || String.eqb owner receiver.

(** The encoder of the system program: it refuses what does not fit 64 bits. *)
Definition lamportsEncoder (z : Z) : option N :=
  if (0 <=? z) && (z <? 2 ^ 64) then Some (Z.to_N z) else None.

(** The encoder of the token library: of a non-negative integer it writes
    the sixteen leading hexadecimal digits. *)
Definition amountEncoder (z : Z) : option N :=
  if 0 <=? z then
    Some (Z.to_N (z / 16 ^ Z.max 0 (Z.log2 z / 4 + 1 - 16)))
  else None.

(** A cluster that answers every call; [present] tells whether the probed
    holding account exists. *)
Definition reachable (present : bool) : World :=
  {| getLatestBlockhash := Some ("9gLnhaBTRZnRUw5ENeSjbV1jGAo1DmGo2pdnrJvnmT7Y", 250000000%N);
     isPublicKey := fun s => existsb (String.eqb s) knownKeys;
     getAssociatedTokenAddress :=
       fun mintKey owner =>
         if onCurve owner then Some (owner +:+ "/" +:+ mintKey) else None;
     getAccount := fun _ => present;
     randomSignature := Some "5SHVFJBFQcNNrAhAYbBbhy9NJ5AciWxSQqgLele8EJpj";
     random36 := "k3j9x0a7q1zpd";
     clockAtSubmit := 1700000000000%N;
     clockAtRecord := 1700000004500%N;
     encodeLamports := lamportsEncoder;
     encodeAmount := amountEncoder |}.

(** A cluster whose blockhash request is rejected. *)
Definition unreachable : World :=
  {| getLatestBlockhash := None;
     isPublicKey := fun s => existsb (String.eqb s) knownKeys;
     getAssociatedTokenAddress :=
       fun mintKey owner =>
         if onCurve owner then Some (owner +:+ "/" +:+ mintKey) else None;
     getAccount := fun _ => false;
     randomSignature := Some "5SHVFJBFQcNNrAhAYbBbhy9NJ5AciWxSQqgLele8EJpj";
     random36 := "k3j9x0a7q1zpd";
     clockAtSubmit := 1700000000000%N;
     clockAtRecord := 1700000004500%N;
     encodeLamports := lamportsEncoder;
     encodeAmount := amountEncoder |}.

(** The same answers one second later. *)
Definition later (w : World) : World :=
  {| getLatestBlockhash := getLatestBlockhash w;
     isPublicKey := isPublicKey w;
     getAssociatedTokenAddress := getAssociatedTokenAddress w;
     getAccount := getAccount w;
     randomSignature := Some "3E1Ym2KLRxcALYVBCKPMvXiXBNwzMHia3vLZQKkELwvL";
     random36 := random36 w;
     clockAtSubmit := (clockAtSubmit w + 1000)%N;
     clockAtRecord := (clockAtRecord w + 1000)%N;
     encodeLamports := encodeLamports w;
     encodeAmount := encodeAmount w |}.

(** A form of the merchant's shop once its quote effect has run. *)
Definition quotedForm (selected : string) (amount : number)
    (balance : option number) : Form.t :=
  fetchQuote merchantProps "k3j9x0a7" (mountedForm selected amount balance).

(** The application as it starts. *)
Definition startedApp : App :=
  {| payments := initialPayments 1699999990000; inflight := [] |}.

(** A record the application holds: one of the list, or one of a list that a
    pending handler has closed over. *)
Definition held (a : App) (x : Payment) : Prop :=
  x ∈ payments a \/ exists closed, closed ∈ inflight a /\ x ∈ closed.

(** A record some submission of the trace handed over. *)
Definition handed (es : list Event) (x : Payment) : Prop :=
  exists i out, Settle i out ∈ es /\ x ∈ out.

(** Two submissions to the shop: 1 SOL, swapped to USDC, and one second
    later 10.5 USDC paid directly. *)
Definition firstSubmission : Form.t * list Payment :=
  handleSubmit shop (Some customer) (reachable true)
    (quotedForm (mint SOL) 1%float (Some 5.5%float)).

Definition secondSubmission : Form.t * list Payment :=
  handleSubmit shop (Some customer) (later (reachable true))
    (quotedForm (mint USDC) 10.5%float (Some 120%float)).

(** The records they hand over. *)
Definition firstPayment : Payment :=
  {| id := "payment-1700000000000"; amount := 149.49875%float; token := mint USDC;
     status := completed; timestamp := 1700000004500%N;
     merchantId := receiver; customerWallet := Some customer;
     txSignature := Some "5SHVFJBFQcNNrAhAYbBbhy9NJ5AciWxSQqgLele8EJpj" |}.

Definition secondPayment : Payment :=
  {| id := "payment-1700000001000"; amount := 10.5%float; token := mint USDC;
     status := completed; timestamp := 1700000005500%N;
     merchantId := receiver; customerWallet := Some customer;
     txSignature := Some "3E1Ym2KLRxcALYVBCKPMvXiXBNwzMHia3vLZQKkELwvL" |}.

(** The state between events: the handler of the submission under way, if
    there is one, closed over the list as it is now. *)
Definition consistent (a : App) : Prop :=
  inflight a = [] \/ inflight a = [payments a].

(** A number that is finite and above zero. *)
Definition positive_finite (x : number) : bool :=
  PrimFloat.ltb 0%float x && PrimFloat.ltb x PrimFloat.infinity.

(** Submissions one after the other: each starts and ends, handing over a
    payment or, when its flow failed, nothing, before the next one starts. *)
Definition rounds (outcomes : list (option Payment)) : list Event :=
  outcomes ≫= (λ o, [Submit; Settle 0 (option_list o)]).

(** A ledger on which the customer holds no token account. *)
Definition emptyLedger : Ledger :=
  {| getBalance := fun _ => Some 5250000000%float;
     tokenAmount := fun _ => None |}.

(** * The exchange rates *)

Ltac lookup_step H :=
  match type of H with
  | context [ <[?k := _]> _ !! ?x ] =>
      destruct (decide (k = x)) as [<-|];
      [ rewrite lookup_insert_eq in H | rewrite lookup_insert_ne in H by done ]
  | context [ ∅ !! _ ] => rewrite lookup_empty in H
  end; cbn in H.

Lemma entry_cases a b r :
  entry a b = Some r -> In (a, b, r) rate_entries.
Proof.
  unfold entry, rates, row. cbn [list_to_map foldr uncurry fst snd].
  intros H.
  repeat lookup_step H; try discriminate.
  all: injection H as <-; cbn; tauto.
Qed.

(** Every entry of the table passes the truthiness test that guards it. *)
Lemma entry_is_truthy a b r : entry a b = Some r -> truthy r = true.
Proof.
  intros H. apply entry_cases in H. cbn in H.
  repeat (destruct H as [H|H]; [injection H as <- <- <-; vm_compute; reflexivity|]).
  destruct H.
Qed.

Lemma entry_truthy_Some a b r : entry a b = Some r -> entry_truthy a b = true.
Proof. intros H. unfold entry_truthy. rewrite H. eauto using entry_is_truthy. Qed.

Lemma entry_truthy_None a b : entry a b = None -> entry_truthy a b = false.
Proof. intros H. unfold entry_truthy. now rewrite H. Qed.

Lemma getMockExchangeRate_by_spec a b :
  getMockExchangeRate a b = rate_by_spec a b.
Proof.
  unfold getMockExchangeRate, rate_by_spec, entry_value.
  destruct (entry a b) as [d|] eqn:Hd.
  { now rewrite (entry_truthy_Some _ _ _ Hd). }
  rewrite (entry_truthy_None _ _ Hd).
  destruct (entry b a) as [i|] eqn:Hi.
  { now rewrite (entry_truthy_Some _ _ _ Hi). }
  rewrite (entry_truthy_None _ _ Hi).
  destruct (entry a "USDC") as [l1|] eqn:H1.
  - rewrite (entry_truthy_Some _ _ _ H1).
    destruct (entry "USDC" b) as [l2|] eqn:H2.
    + now rewrite (entry_truthy_Some _ _ _ H2).
    + now rewrite (entry_truthy_None _ _ H2).
  - now rewrite (entry_truthy_None _ _ H1).
Qed.

(** C6. For every pair of distinct token symbols the rate is the direct
    table entry if there is one, otherwise the reciprocal of the inverse
    entry if there is one, otherwise the product of the legs through USDC
    if both exist, otherwise exactly 1. *)
Theorem getMockExchangeRate_resolution_order (fromSymbol toSymbol : string) :
  In fromSymbol symbols ->
  In toSymbol symbols ->
  fromSymbol <> toSymbol ->
  getMockExchangeRate fromSymbol toSymbol = rate_by_spec fromSymbol toSymbol.
Proof. intros _ _ _. apply getMockExchangeRate_by_spec. Qed.

Lemma getMockExchangeRate_resolution_order_witness :
  In "JUP" symbols /\ In "USDC" symbols /\ "JUP" <> "USDC" /\
  getMockExchangeRate "JUP" "USDC" = rate_by_spec "JUP" "USDC" /\
  rate_by_spec "JUP" "USDC" = 1%float.
Proof.
  assert (Hf : In "JUP" symbols) by (cbn; tauto).
  assert (Ht : In "USDC" symbols) by (cbn; tauto).
  assert (Hne : "JUP" <> "USDC") by discriminate.
  assert (Hone : rate_by_spec "JUP" "USDC" = 1%float) by (vm_compute; reflexivity).
  exact (conj Hf (conj Ht (conj Hne
           (conj (getMockExchangeRate_resolution_order "JUP" "USDC" Hf Ht Hne) Hone)))).
Defined.

(** C5, refuted as stated: USDC/BONK is a pair of the table, both
    directions are resolved by their direct entries, 6500 and 0.00015, and
    their product is 0.975: the rates are not reciprocal, even up to 2%. *)
Lemma USDC_BONK_not_reciprocal :
  entry "USDC" "BONK" = Some 6500%float /\
  entry "BONK" "USDC" = Some 0.00015%float /\
  getMockExchangeRate "USDC" "BONK" = 6500%float /\
  getMockExchangeRate "BONK" "USDC" = 0.00015%float /\
  reciprocal_within (1 # 50)
    (getMockExchangeRate "USDC" "BONK") (getMockExchangeRate "BONK" "USDC") = false.
Proof. repeat split; vm_compute; reflexivity. Qed.

(** C5, amended. For every pair (A, B) with an entry in the rate table, the
    rate for A to B is the reciprocal of the rate for B to A within rounding
    tolerance (relative error at most 2^-52) exactly when A or B is SOL;
    the pairs among USDC, USDT and BONK carry unrelated entries. *)
Theorem rates_reciprocal_iff_SOL (a b : string) :
  is_Some (entry a b) ->
  reciprocal_within ulp (getMockExchangeRate a b) (getMockExchangeRate b a)
  = (String.eqb a "SOL" || String.eqb b "SOL").
Proof.
  intros [r H]. apply entry_cases in H. cbn in H.
  repeat (destruct H as [H|H]; [injection H as <- <- <-; vm_compute; reflexivity|]).
  destruct H.
Qed.

Lemma rates_reciprocal_iff_SOL_witness :
  is_Some (entry "SOL" "USDT") /\
  reciprocal_within ulp (getMockExchangeRate "SOL" "USDT") (getMockExchangeRate "USDT" "SOL")
  = true.
Proof.
  assert (H : is_Some (entry "SOL" "USDT")) by (exists 150.15%float; vm_compute; reflexivity).
  exact (conj H (rates_reciprocal_iff_SOL "SOL" "USDT" H)).
Defined.

(** * Quotes and swaps *)

Lemma find_by_mint_registered t : registered t -> find_by_mint (mint t) = Some t.
Proof.
  unfold registered. cbn. intros H.
  repeat (destruct H as [<-|H]; [reflexivity|]). destruct H.
Qed.

Lemma registered_mint_truthy t : registered t -> truthy_string (mint t) = true.
Proof.
  unfold registered. cbn. intros H.
  repeat (destruct H as [<-|H]; [reflexivity|]). destruct H.
Qed.

Ltac form_simpl :=
  cbn [Form.amount Form.selectedToken Form.isProcessing Form.quote Form.error
       Form.success Form.tokenBalance Form.paymentStatus
       Form.setQuote Form.setError Form.setSuccess Form.setIsProcessing
       Form.setPaymentStatus] in *.

(** The two paths of the quote effect. *)
Lemma fetchQuote_same p rnd f :
  gt (Form.amount f) 0%float = true ->
  truthy_string (Form.selectedToken f) = true ->
  truthy_string (preferredToken p) = true ->
  Form.selectedToken f = preferredToken p ->
  exists q,
    fetchQuote p rnd f = Form.setQuote (Some q) f /\
    inputMint q = Form.selectedToken f /\
    outputMint q = preferredToken p /\
    inAmount q = (Form.amount f * pow10 (decimals (selectedTokenInfo f)))%float /\
    outAmount q = (Form.amount f * pow10 (decimals (preferredTokenInfo p)))%float /\
    PlatformFee.amount (platformFee q) = 0%float /\
    PlatformFee.feeBps (platformFee q) = 0%float /\
    priceImpactPct q = 0%float.
Proof.
  intros Hpos Hs Hp Heq. unfold fetchQuote.
  rewrite Hpos, Hs, Hp, Heq, String.eqb_refl. cbn [andb].
  eexists. split; [reflexivity|]. cbn [inputMint outputMint inAmount outAmount
    platformFee priceImpactPct PlatformFee.amount PlatformFee.feeBps].
  repeat split.
Qed.

Lemma fetchQuote_swap p rnd f :
  gt (Form.amount f) 0%float = true ->
  truthy_string (Form.selectedToken f) = true ->
  truthy_string (preferredToken p) = true ->
  Form.selectedToken f <> preferredToken p ->
  exists q,
    getQuote (selectedTokenInfo f) (preferredTokenInfo p) (Form.amount f) rnd = Ok q /\
    fetchQuote p rnd f
    = Form.setPaymentStatus FormStatus.idle
        (Form.setError None
           (Form.setQuote (Some q) (Form.setPaymentStatus FormStatus.quoting f))).
Proof.
  intros Hpos Hs Hp Hne. unfold fetchQuote.
  rewrite Hpos, Hs, Hp. cbn [andb].
  apply String.eqb_neq in Hne. rewrite Hne.
  eexists. split; reflexivity.
Qed.

(** C4. For every registry token A and every positive amount, the quote
    for A to A has an output amount equal to its input amount, a fee of 0
    and a price impact of 0. *)
Theorem same_token_quote (p : Props) (rnd : string) (f : Form.t) (A : TokenInfo) :
  registered A ->
  Form.selectedToken f = mint A ->
  preferredToken p = mint A ->
  gt (Form.amount f) 0%float = true ->
  exists q,
    Form.quote (fetchQuote p rnd f) = Some q /\
    inputMint q = mint A /\
    outputMint q = mint A /\
    inAmount q = (Form.amount f * pow10 (decimals A))%float /\
    outAmount q = inAmount q /\
    PlatformFee.amount (platformFee q) = 0%float /\
    PlatformFee.feeBps (platformFee q) = 0%float /\
    priceImpactPct q = 0%float.
Proof.
  intros HA Hs Hp Hpos.
  destruct (fetchQuote_same p rnd f) as (q & -> & Hi & Ho & Hin & Hout & Hfee & Hbps & Himp);
    auto; try congruence.
  - rewrite Hs. now apply registered_mint_truthy.
  - rewrite Hp. now apply registered_mint_truthy.
  - assert (HsA : selectedTokenInfo f = A)
      by (unfold selectedTokenInfo; now rewrite Hs, (find_by_mint_registered _ HA)).
    assert (HpA : preferredTokenInfo p = A)
      by (unfold preferredTokenInfo; now rewrite Hp, (find_by_mint_registered _ HA)).
    rewrite HsA in Hin. rewrite HpA in Hout.
    exists q. form_simpl. repeat split; congruence.
Qed.

Lemma same_token_quote_witness :
  exists q,
    Form.quote (fetchQuote merchantProps "" (mountedForm (mint USDC) 10.5%float None)) = Some q /\
    inputMint q = mint USDC /\
    outputMint q = mint USDC /\
    inAmount q = (10.5 * pow10 (decimals USDC))%float /\
    outAmount q = inAmount q /\
    PlatformFee.amount (platformFee q) = 0%float /\
    PlatformFee.feeBps (platformFee q) = 0%float /\
    priceImpactPct q = 0%float.
Proof.
  apply (same_token_quote merchantProps "" (mountedForm (mint USDC) 10.5%float None) USDC).
  - unfold registered; cbn; tauto.
  - reflexivity.
  - reflexivity.
  - vm_compute; reflexivity.
Defined.

Lemma number_neq (x y : number) : Prim2SF x <> Prim2SF y -> x <> y.
Proof. intros H ->. now apply H. Qed.

(** C1, refuted as stated: the quote for 1 SOL to USDC has the output
    amount 150250000 base units, that is 1 x 150.25 scaled by 10^6 with no
    slippage factor; 1 x 150.25 x (1 - 0.005) is 149.49875, or 149498750
    base units, which the quote carries as [otherAmountThreshold]. *)
Lemma quote_outAmount_without_slippage :
  exists q,
    getQuote SOL USDC 1%float "k3j9x0a7" = Ok q /\
    outAmount q = 150250000%float /\
    otherAmountThreshold q = Some 149498750%float /\
    (1 * getMockExchangeRate "SOL" "USDC" * (1 - 50 / 10000))%float = 149.49875%float /\
    outAmount q <> (1 * getMockExchangeRate "SOL" "USDC" * (1 - 50 / 10000))%float /\
    outAmount q <>
      Math_floor (1 * getMockExchangeRate "SOL" "USDC" * (1 - 50 / 10000)
                  * pow10 (decimals USDC))%float.
Proof.
  eexists. split; [reflexivity|].
  repeat split; try (vm_compute; reflexivity);
    apply number_neq; vm_compute; discriminate.
Qed.

(** C1, amended. For registry tokens A (input) and B (output) and a
    positive amount, the form obtains a quote; when A and B match, the
    quote's output amount equals its input amount exactly; when they
    differ, the quote's output amount is floor(amount x rate x 10^decimals
    of B), the slippage factor 0.995 enters only its other-amount
    threshold, and it is the simulated swap whose output amount equals
    amount x rate x (1 - slippageBps / 10000). *)
Theorem quote_and_swap_amounts (p : Props) (rnd rnd' : string) (f : Form.t)
    (A B : TokenInfo) (slippageBps : number) :
  registered A ->
  registered B ->
  Form.selectedToken f = mint A ->
  preferredToken p = mint B ->
  gt (Form.amount f) 0%float = true ->
  let amount := Form.amount f in
  let rate := getMockExchangeRate (symbol A) (symbol B) in
  exists q,
    Form.quote (fetchQuote p rnd f) = Some q /\
    inAmount q = (amount * pow10 (decimals A))%float /\
    if String.eqb (mint A) (mint B) then
      outAmount q = inAmount q
    else
      outAmount q = Math_floor (amount * rate * pow10 (decimals B))%float /\
      otherAmountThreshold q =
        Some (Math_floor (amount * rate * 0.995 * pow10 (decimals B))%float) /\
      exists r,
        executeSwap A B amount slippageBps rnd' = Ok r /\
        inputAmount r = amount /\
        outputAmount r = (amount * rate * (1 - slippageBps / 10000))%float.
Proof.
  intros HA HB Hs Hp Hpos amount rate. subst amount rate.
  assert (Hts : truthy_string (Form.selectedToken f) = true)
    by (rewrite Hs; now apply registered_mint_truthy).
  assert (Htp : truthy_string (preferredToken p) = true)
    by (rewrite Hp; now apply registered_mint_truthy).
  assert (HsA : selectedTokenInfo f = A)
    by (unfold selectedTokenInfo; now rewrite Hs, (find_by_mint_registered _ HA)).
  assert (HpB : preferredTokenInfo p = B)
    by (unfold preferredTokenInfo; now rewrite Hp, (find_by_mint_registered _ HB)).
  destruct (String.eqb (mint A) (mint B)) eqn:Hsame.
  - apply String.eqb_eq in Hsame.
    assert (A = B) as <-.
    { pose proof (find_by_mint_registered _ HA) as H1.
      pose proof (find_by_mint_registered _ HB) as H2.
      rewrite Hsame in H1. congruence. }
    destruct (fetchQuote_same p rnd f) as (q & -> & _ & _ & Hin & Hout & _);
      auto; try congruence.
    exists q. form_simpl. rewrite HsA in Hin. rewrite HpB in Hout.
    repeat split; congruence.
  - apply String.eqb_neq in Hsame.
    destruct (fetchQuote_swap p rnd f) as (q & Hq & ->); auto; try congruence.
    rewrite HsA, HpB in Hq. injection Hq as <-.
    eexists. form_simpl. split; [reflexivity|].
    cbn [inAmount outAmount otherAmountThreshold].
    repeat split. eexists. repeat split.
Qed.

Lemma quote_and_swap_amounts_witness :
  exists q,
    Form.quote (fetchQuote merchantProps "k3j9x0a7" (mountedForm (mint SOL) 1%float None))
    = Some q /\
    inAmount q = (1 * pow10 (decimals SOL))%float /\
    outAmount q
    = Math_floor (1 * getMockExchangeRate "SOL" "USDC" * pow10 (decimals USDC))%float /\
    otherAmountThreshold q
    = Some (Math_floor (1 * getMockExchangeRate "SOL" "USDC" * 0.995
                        * pow10 (decimals USDC))%float) /\
    exists r,
      executeSwap SOL USDC 1%float 50%float "k3j9x0a7q1zpd" = Ok r /\
      inputAmount r = 1%float /\
      outputAmount r = (1 * getMockExchangeRate "SOL" "USDC" * (1 - 50 / 10000))%float.
Proof.
  assert (HA : registered SOL) by (unfold registered; cbn; tauto).
  assert (HB : registered USDC) by (unfold registered; cbn; tauto).
  assert (Hpos : gt 1%float 0%float = true) by (vm_compute; reflexivity).
  exact (quote_and_swap_amounts merchantProps "k3j9x0a7" "k3j9x0a7q1zpd"
           (mountedForm (mint SOL) 1%float None) SOL USDC 50%float
           HA HB eq_refl eq_refl Hpos).
Defined.

(** The records the form quotes with are registry tokens, whatever the
    identifiers it holds. *)
Lemma form_tokens_registered (p : Props) (f : Form.t) :
  registered (selectedTokenInfo f) /\ registered (preferredTokenInfo p).
Proof.
  assert (H : forall m d, registered d -> registered (default d (find_by_mint m))).
  { intros m d Hd. unfold find_by_mint.
    destruct (List.find _ _) as [t|] eqn:Hfind; [|exact Hd].
    now apply List.find_some in Hfind as [Hin _]. }
  split; apply H; unfold registered; cbn; tauto.
Qed.

(** C3, refuted as stated: a token record whose mint the registry does not
    resolve, USDC bridged from another chain, raises no error; [getQuote]
    quotes 1 SOL into it at the rate of its symbol. *)
Lemma quote_of_unresolved_token :
  find_by_mint (mint bridgedUSDC) = None /\
  exists q,
    getQuote SOL bridgedUSDC 1%float "k3j9x0a7" = Ok q /\
    inputMint q = mint SOL /\
    outputMint q = mint bridgedUSDC /\
    outAmount q = 150250000%float.
Proof.
  split; [reflexivity|]. eexists. split; [reflexivity|].
  split; [reflexivity|]. split; [reflexivity|]. vm_compute. reflexivity.
Qed.

(** C3, amended. The quote operation has no token-not-found error and does
    not consult the registry.  For token records that carry registry
    symbols, whether or not the registry resolves their mints, [getQuote]
    returns a quote that names the mints of the records and prices them by
    their symbols.  The form passes it registry tokens only, SOL standing
    in for an input identifier that does not resolve and USDC for such an
    output identifier, and so, for a positive amount and non-empty
    identifiers, its quote effect always stores a quote and reports no
    failure. *)
Theorem quote_never_fails (p : Props) (rnd : string) (f : Form.t)
    (inputToken outputToken : TokenInfo) (amount : number) :
  In (symbol inputToken) symbols ->
  In (symbol outputToken) symbols ->
  gt (Form.amount f) 0%float = true ->
  truthy_string (Form.selectedToken f) = true ->
  truthy_string (preferredToken p) = true ->
  (exists q,
     getQuote inputToken outputToken amount rnd = Ok q /\
     inputMint q = mint inputToken /\
     outputMint q = mint outputToken /\
     outAmount q
     = Math_floor (amount * getMockExchangeRate (symbol inputToken) (symbol outputToken)
                   * pow10 (decimals outputToken))%float) /\
  registered (selectedTokenInfo f) /\
  registered (preferredTokenInfo p) /\
  (exists q,
     Form.quote (fetchQuote p rnd f) = Some q /\
     (Form.selectedToken f <> preferredToken p ->
      Form.error (fetchQuote p rnd f) = None /\
      inputMint q = mint (default SOL (find_by_mint (Form.selectedToken f))) /\
      outputMint q = mint (default USDC (find_by_mint (preferredToken p)))) /\
     (Form.selectedToken f = preferredToken p ->
      Form.error (fetchQuote p rnd f) = Form.error f)).
Proof.
  intros _ _ Hpos Hs Hp. split; [eexists; repeat split|].
  destruct (form_tokens_registered p f) as [Hsel Hpref].
  split; [exact Hsel|]. split; [exact Hpref|].
  destruct (decide (Form.selectedToken f = preferredToken p)) as [Heq|Hne].
  - destruct (fetchQuote_same p rnd f) as (q & -> & _); auto.
    exists q. form_simpl. repeat split; congruence.
  - destruct (fetchQuote_swap p rnd f) as (q & Hq & ->); auto.
    injection Hq as <-.
    eexists. form_simpl. split; [reflexivity|]. split; [|congruence].
    intros _. repeat split.
Qed.

Lemma quote_never_fails_witness :
  (exists q,
     getQuote SOL bridgedUSDC 1%float "k3j9x0a7" = Ok q /\
     inputMint q = mint SOL /\
     outputMint q = mint bridgedUSDC /\
     outAmount q
     = Math_floor (1 * getMockExchangeRate (symbol SOL) (symbol bridgedUSDC)
                   * pow10 (decimals bridgedUSDC))%float) /\
  registered (selectedTokenInfo (mountedForm (mint SOL) 1%float None)) /\
  registered (preferredTokenInfo merchantProps) /\
  (exists q,
     Form.quote (fetchQuote merchantProps "k3j9x0a7" (mountedForm (mint SOL) 1%float None))
     = Some q /\
     (mint SOL <> mint USDC ->
      Form.error (fetchQuote merchantProps "k3j9x0a7" (mountedForm (mint SOL) 1%float None))
      = None /\
      inputMint q = mint (default SOL (find_by_mint (mint SOL))) /\
      outputMint q = mint (default USDC (find_by_mint (mint USDC)))) /\
     (mint SOL = mint USDC ->
      Form.error (fetchQuote merchantProps "k3j9x0a7" (mountedForm (mint SOL) 1%float None))
      = None)).
Proof.
  assert (Hi : In (symbol SOL) symbols) by (cbn; tauto).
  assert (Ho : In (symbol bridgedUSDC) symbols) by (cbn; tauto).
  assert (Hpos : gt 1%float 0%float = true) by (vm_compute; reflexivity).
  exact (quote_never_fails merchantProps "k3j9x0a7" (mountedForm (mint SOL) 1%float None)
           SOL bridgedUSDC 1%float Hi Ho Hpos eq_refl eq_refl).
Defined.

(** * The transaction builder *)

Lemma mint_SOL_only t : registered t -> mint t <> mint SOL -> String.eqb (mint t) (mint SOL) = false.
Proof. intros _ H. now apply String.eqb_neq. Qed.

(** [Math.floor] keeps the largest integer below a finite value that has a
    fractional part: less than one unit is dropped. *)
Lemma floor_int_bracket (s : bool) (m : positive) (e : Z) :
  e < 0 ->
  floor_int s m e * 2 ^ (- e) <= signed s m < (floor_int s m e + 1) * 2 ^ (- e).
Proof.
  intros He. unfold floor_int.
  destruct (Z.leb_spec 0 e) as [H|_]; [lia|].
  assert (Hd : 0 < 2 ^ (- e)) by (apply Z.pow_pos_nonneg; lia).
  pose proof (Z.mul_div_le (signed s m) _ Hd).
  pose proof (Z.mul_succ_div_gt (signed s m) _ Hd).
  lia.
Qed.

Lemma Math_floor_finite (x : number) (s : bool) (m : positive) (e : Z) :
  Prim2SF x = S754_finite s m e ->
  e < 0 ->
  Math_floor x = of_Z (floor_int s m e).
Proof.
  intros Hx He. unfold Math_floor. rewrite Hx.
  destruct (Z.leb_spec 0 e) as [H|_]; [lia|reflexivity].
Qed.

(** The integer of [Math.floor(x)] is at or below the value of [x], and
    less than one above it is dropped. *)
Lemma floor_integer_bracket (x : number) (z : Z) :
  floor_integer x = Some z ->
  exists q, exact x = Some q /\ (inject_Z z <= q)%Q /\ (q < inject_Z z + 1)%Q.
Proof.
  unfold floor_integer, exact.
  destruct (Prim2SF x) as [s|s| |s m e]; try discriminate; intros [= <-].
  - exists 0%Q. split; [reflexivity|]. split; [apply Qle_refl|reflexivity].
  - destruct (Z.leb_spec 0 e) as [He|He].
    + unfold floor_int. destruct (Z.leb_spec 0 e) as [_|H]; [|lia].
      eexists. split; [reflexivity|]. split; [apply Qle_refl|].
      unfold Qlt. cbn. lia.
    + pose proof (floor_int_bracket s m e He) as [Hlo Hhi].
      assert (Hd : 0 < 2 ^ (- e)) by (apply Z.pow_pos_nonneg; lia).
      eexists. split; [reflexivity|].
      unfold Qle, Qlt. cbn [Qnum Qden inject_Z Qplus].
      rewrite !Z2Pos.id by assumption. split; lia.
Qed.

(** [floor_integer] is the integer of the number [Math_floor] returns:
    that number is [x] itself when [x] is a zero or has no fractional bits,
    and the conversion of the integer otherwise. *)
Lemma Math_floor_floor_integer (x : number) (z : Z) :
  floor_integer x = Some z ->
  (Math_floor x = x /\
   (Prim2SF x = S754_zero false \/ Prim2SF x = S754_zero true \/
    exists s m e, Prim2SF x = S754_finite s m e /\ 0 <= e /\ z = signed s m * 2 ^ e))
  \/ Math_floor x = of_Z z.
Proof.
  unfold floor_integer, Math_floor.
  destruct (Prim2SF x) as [[|]|s| |s m e]; try discriminate; intros [= <-].
  - left. split; [reflexivity|]. right. now left.
  - left. split; [reflexivity|]. now left.
  - unfold floor_int. destruct (Z.leb_spec 0 e) as [He|He].
    + left. split; [reflexivity|]. right. right. now exists s, m, e.
    + now right.
Qed.

(** On a count below [2^53] the encoders agree with the number. *)
Lemma encode_floor_safe (encoder : Z -> option N) (x : number) (z : Z) :
  floor_integer x = Some z ->
  0 <= z < 2 ^ 53 ->
  encode_floor encoder x = Ok (Z.to_N z).
Proof.
  intros Hx [Hlo Hhi]. unfold encode_floor. rewrite Hx.
  destruct (Z.leb_spec 0 z); [|lia]. destruct (Z.ltb_spec z (2 ^ 53)); [|lia].
  reflexivity.
Qed.

(** The token branch of the builder, once the cluster has answered. *)
Lemma createPaymentTransaction_token (w : World) (amount : number) (t : TokenInfo)
    (fromWallet toWallet : PublicKey) (bh : string * N)
    (fromTokenAccount toTokenAccount : PublicKey) (units : Z) :
  registered t ->
  mint t <> mint SOL ->
  getLatestBlockhash w = Some bh ->
  isPublicKey w (mint t) = true ->
  getAssociatedTokenAddress w (mint t) fromWallet = Some fromTokenAccount ->
  getAssociatedTokenAddress w (mint t) toWallet = Some toTokenAccount ->
  floor_integer (amount * pow10 (decimals t))%float = Some units ->
  0 <= units < 2 ^ 53 ->
  createPaymentTransaction w amount (mint t) fromWallet toWallet
  = Ok {| feePayer := fromWallet; blockhash := bh.1; lastValidBlockHeight := bh.2;
          instructions :=
            [SetComputeUnitLimit 200000]
            ++ (if getAccount w toTokenAccount then []
                else [CreateAssociatedTokenAccount fromWallet toTokenAccount toWallet (mint t)])
            ++ [TokenTransfer fromTokenAccount toTokenAccount fromWallet
                  (Z.to_N units) [] TOKEN_PROGRAM_ID] |}.
Proof.
  intros Ht Hne Hbh Hkey Hfrom Hto Hunits Hrange.
  unfold createPaymentTransaction, new_PublicKey.
  rewrite Hbh, (mint_SOL_only _ Ht Hne), Hkey. cbn [of_option bind].
  rewrite Hfrom, Hto. cbn [of_option bind].
  rewrite (find_by_mint_registered _ Ht). cbn [of_option bind].
  rewrite (encode_floor_safe _ _ _ Hunits Hrange). cbn [bind].
  destruct (getAccount w toTokenAccount); reflexivity.
Qed.

(** C7. For every fungible (non-native) registry token, and an amount whose
    count of base units, floor(amount x 10^decimals), is a non-negative
    integer below 2^53, the builder returns, in order, the
    budget reservation, then the creation of the receiver's holding account
    exactly when the probe finds no such account, then the transfer of that
    count of base units: three operations when the account is absent, two
    when it exists.  The count is at or below amount x 10^decimals and less
    than one base unit under it. *)
Theorem token_transfer_operations (w : World) (amount : number) (t : TokenInfo)
    (fromWallet toWallet : PublicKey) (bh : string * N)
    (fromTokenAccount toTokenAccount : PublicKey) (units : Z) :
  registered t ->
  mint t <> mint SOL ->
  getLatestBlockhash w = Some bh ->
  isPublicKey w (mint t) = true ->
  getAssociatedTokenAddress w (mint t) fromWallet = Some fromTokenAccount ->
  getAssociatedTokenAddress w (mint t) toWallet = Some toTokenAccount ->
  floor_integer (amount * pow10 (decimals t))%float = Some units ->
  0 <= units < 2 ^ 53 ->
  exists tx,
    createPaymentTransaction w amount (mint t) fromWallet toWallet = Ok tx /\
    instructions tx
    = [SetComputeUnitLimit 200000]
      ++ (if getAccount w toTokenAccount then []
          else [CreateAssociatedTokenAccount fromWallet toTokenAccount toWallet (mint t)])
      ++ [TokenTransfer fromTokenAccount toTokenAccount fromWallet
            (Z.to_N units) [] TOKEN_PROGRAM_ID] /\
    length (instructions tx) = (if getAccount w toTokenAccount then 2 else 3)%nat /\
    exists q,
      exact (amount * pow10 (decimals t))%float = Some q /\
      (inject_Z units <= q)%Q /\ (q < inject_Z units + 1)%Q.
Proof.
  intros Ht Hne Hbh Hkey Hfrom Hto Hunits Hrange.
  eexists. split.
  - now apply (createPaymentTransaction_token w amount t fromWallet toWallet bh
                 fromTokenAccount toTokenAccount units).
  - cbn [instructions]. split; [reflexivity|]. split.
    + destruct (getAccount w toTokenAccount); reflexivity.
    + now apply floor_integer_bracket.
Qed.

Lemma token_transfer_operations_witness :
  exists tx,
    createPaymentTransaction (reachable false) 10.5%float (mint USDC)
      customer receiver = Ok tx /\
    instructions tx
    = [SetComputeUnitLimit 200000;
       CreateAssociatedTokenAccount customer
         (receiver +:+ "/" +:+ mint USDC) receiver (mint USDC);
       TokenTransfer (customer +:+ "/" +:+ mint USDC)
         (receiver +:+ "/" +:+ mint USDC) customer
         10500000%N [] TOKEN_PROGRAM_ID] /\
    length (instructions tx) = 3%nat /\
    exists q,
      exact (10.5 * pow10 (decimals USDC))%float = Some q /\
      (inject_Z 10500000 <= q)%Q /\ (q < inject_Z 10500000 + 1)%Q.
Proof.
  assert (Ht : registered USDC) by (unfold registered; cbn; tauto).
  assert (Hne : mint USDC <> mint SOL) by discriminate.
  assert (Hu : floor_integer (10.5 * pow10 (decimals USDC))%float = Some 10500000)
    by (vm_compute; reflexivity).
  assert (Hr : 0 <= 10500000 < 2 ^ 53) by (split; [discriminate|reflexivity]).
  exact (token_transfer_operations (reachable false) 10.5%float USDC
           customer receiver
           ("9gLnhaBTRZnRUw5ENeSjbV1jGAo1DmGo2pdnrJvnmT7Y", 250000000%N)
           (customer +:+ "/" +:+ mint USDC)
           (receiver +:+ "/" +:+ mint USDC) 10500000
           Ht Hne eq_refl eq_refl eq_refl eq_refl Hu Hr).
Defined.

(** Whatever the builder returns starts with the budget reservation. *)
Lemma budget_reservation_first (w : World) (amount : number) (tokenMint : string)
    (fromWallet toWallet : PublicKey) (tx : Transaction) :
  createPaymentTransaction w amount tokenMint fromWallet toWallet = Ok tx ->
  exists rest, instructions tx = SetComputeUnitLimit 200000 :: rest.
Proof.
  unfold createPaymentTransaction, new_PublicKey.
  destruct (getLatestBlockhash w) as [bh|]; cbn [of_option bind]; [|discriminate].
  destruct (String.eqb tokenMint (mint SOL)).
  { destruct (encode_floor _ _); cbn [bind]; [|discriminate].
    intros [= <-]. eexists. reflexivity. }
  destruct (isPublicKey w tokenMint); cbn [bind]; [|discriminate].
  destruct (getAssociatedTokenAddress w tokenMint fromWallet);
    cbn [of_option bind]; [|discriminate].
  destruct (getAssociatedTokenAddress w tokenMint toWallet);
    cbn [of_option bind]; [|discriminate].
  destruct (find_by_mint tokenMint); cbn [of_option bind]; [|discriminate].
  destruct (encode_floor _ _); cbn [bind]; [|discriminate].
  destruct (getAccount w _); intros [= <-]; eexists; reflexivity.
Qed.


(** C8. For the native asset and the amount 2.75 the builder returns exactly
    two operations, the budget reservation and then one transfer from the
    sender to the receiver of floor(2.75 x LAMPORTS_PER_SOL) = 2750000000
    base units; and the budget reservation is the first operation of every
    transaction the builder returns. *)
Theorem native_transfer_operations (w : World) (fromWallet toWallet : PublicKey)
    (bh : string * N) :
  getLatestBlockhash w = Some bh ->
  (exists tx,
     createPaymentTransaction w 2.75%float (mint SOL) fromWallet toWallet = Ok tx /\
     instructions tx
     = [SetComputeUnitLimit 200000;
        SystemTransfer fromWallet toWallet 2750000000%N] /\
     Math_floor (2.75 * LAMPORTS_PER_SOL)%float = 2750000000%float /\
     floor_integer (2.75 * LAMPORTS_PER_SOL)%float = Some 2750000000 /\
     length (instructions tx) = 2%nat) /\
  (forall amount tokenMint sender receiver tx,
     createPaymentTransaction w amount tokenMint sender receiver = Ok tx ->
     exists rest, instructions tx = SetComputeUnitLimit 200000 :: rest).
Proof.
  intros Hbh. split.
  - assert (Hu : floor_integer (2.75 * LAMPORTS_PER_SOL)%float = Some 2750000000)
      by (vm_compute; reflexivity).
    unfold createPaymentTransaction. rewrite Hbh. cbn [of_option bind].
    rewrite String.eqb_refl.
    rewrite (encode_floor_safe _ _ _ Hu) by (split; [discriminate|reflexivity]).
    cbn [bind]. eexists. split; [reflexivity|].
    cbn [instructions add app]. split; [reflexivity|].
    split; [vm_compute; reflexivity|]. split; [exact Hu|reflexivity].
  - intros amount tokenMint sender receiver tx. apply budget_reservation_first.
Qed.

Lemma native_transfer_operations_witness :
  (exists tx,
     createPaymentTransaction (reachable true) 2.75%float (mint SOL)
       customer merchant_walletAddress = Ok tx /\
     instructions tx
     = [SetComputeUnitLimit 200000;
        SystemTransfer customer merchant_walletAddress 2750000000%N] /\
     Math_floor (2.75 * LAMPORTS_PER_SOL)%float = 2750000000%float /\
     floor_integer (2.75 * LAMPORTS_PER_SOL)%float = Some 2750000000 /\
     length (instructions tx) = 2%nat) /\
  (forall amount tokenMint sender receiver tx,
     createPaymentTransaction (reachable true) amount tokenMint sender receiver = Ok tx ->
     exists rest, instructions tx = SetComputeUnitLimit 200000 :: rest).
Proof.
  exact (native_transfer_operations (reachable true) customer merchant_walletAddress
           ("9gLnhaBTRZnRUw5ENeSjbV1jGAo1DmGo2pdnrJvnmT7Y", 250000000%N) eq_refl).
Defined.

(** C9. For the amount 0.0000001 of a token with 6 decimals the builder's
    transfer carries exactly 0 base units; and for every amount whose count
    of base units is a non-negative integer below 2^53, the transfer the
    builder returns carries floor(amount x 10^6): an integer at or below
    the scaled amount, the remainder, less than one base unit, being
    dropped. *)
Theorem sub_unit_amount_is_dropped (w : World) (t : TokenInfo)
    (fromWallet toWallet : PublicKey) (bh : string * N)
    (fromTokenAccount toTokenAccount : PublicKey) :
  registered t ->
  decimals t = 6%nat ->
  getLatestBlockhash w = Some bh ->
  isPublicKey w (mint t) = true ->
  getAssociatedTokenAddress w (mint t) fromWallet = Some fromTokenAccount ->
  getAssociatedTokenAddress w (mint t) toWallet = Some toTokenAccount ->
  (exists tx before,
     createPaymentTransaction w 0.0000001%float (mint t) fromWallet toWallet = Ok tx /\
     instructions tx
     = before ++ [TokenTransfer fromTokenAccount toTokenAccount fromWallet
                    0%N [] TOKEN_PROGRAM_ID]) /\
  (forall (amount : number) (units : Z),
     floor_integer (amount * pow10 6)%float = Some units ->
     0 <= units < 2 ^ 53 ->
     (exists tx before,
        createPaymentTransaction w amount (mint t) fromWallet toWallet = Ok tx /\
        instructions tx
        = before ++ [TokenTransfer fromTokenAccount toTokenAccount fromWallet
                       (Z.to_N units) [] TOKEN_PROGRAM_ID]) /\
     exists q,
       exact (amount * pow10 6)%float = Some q /\
       (inject_Z units <= q)%Q /\ (q < inject_Z units + 1)%Q).
Proof.
  intros Ht Hdec Hbh Hkey Hfrom Hto.
  assert (Hne : mint t <> mint SOL).
  { clear -Ht Hdec. unfold registered in Ht. cbn in Ht.
    repeat (destruct Ht as [<-|Ht]; [first [discriminate Hdec | discriminate]|]).
    destruct Ht. }
  assert (Hgen : forall (amount : number) (units : Z),
    floor_integer (amount * pow10 6)%float = Some units ->
    0 <= units < 2 ^ 53 ->
    exists tx before,
      createPaymentTransaction w amount (mint t) fromWallet toWallet = Ok tx /\
      instructions tx
      = before ++ [TokenTransfer fromTokenAccount toTokenAccount fromWallet
                     (Z.to_N units) [] TOKEN_PROGRAM_ID]).
  { intros amount units Hu Hr. rewrite <- Hdec in Hu.
    eexists. exists ([SetComputeUnitLimit 200000]
      ++ (if getAccount w toTokenAccount then []
          else [CreateAssociatedTokenAccount fromWallet toTokenAccount toWallet (mint t)])).
    split.
    - now apply (createPaymentTransaction_token w amount t fromWallet toWallet bh
                   fromTokenAccount toTokenAccount units).
    - cbn [instructions]. now rewrite <- app_assoc. }
  split.
  - apply (Hgen 0.0000001%float 0); [vm_compute; reflexivity|].
    split; [reflexivity|reflexivity].
  - intros amount units Hu Hr. split; [now apply Hgen|].
    now apply floor_integer_bracket.
Qed.

Lemma sub_unit_amount_is_dropped_witness :
  (exists tx before,
     createPaymentTransaction (reachable true) 0.0000001%float (mint JUP)
       customer receiver = Ok tx /\
     instructions tx
     = before ++ [TokenTransfer (customer +:+ "/" +:+ mint JUP)
                    (receiver +:+ "/" +:+ mint JUP) customer
                    0%N [] TOKEN_PROGRAM_ID]) /\
  (forall (amount : number) (units : Z),
     floor_integer (amount * pow10 6)%float = Some units ->
     0 <= units < 2 ^ 53 ->
     (exists tx before,
        createPaymentTransaction (reachable true) amount (mint JUP)
          customer receiver = Ok tx /\
        instructions tx
        = before ++ [TokenTransfer (customer +:+ "/" +:+ mint JUP)
                       (receiver +:+ "/" +:+ mint JUP) customer
                       (Z.to_N units) [] TOKEN_PROGRAM_ID]) /\
     exists q,
       exact (amount * pow10 6)%float = Some q /\
       (inject_Z units <= q)%Q /\ (q < inject_Z units + 1)%Q).
Proof.
  assert (Ht : registered JUP) by (unfold registered; cbn; tauto).
  exact (sub_unit_amount_is_dropped (reachable true) JUP
           customer receiver
           ("9gLnhaBTRZnRUw5ENeSjbV1jGAo1DmGo2pdnrJvnmT7Y", 250000000%N)
           (customer +:+ "/" +:+ mint JUP)
           (receiver +:+ "/" +:+ mint JUP)
           Ht eq_refl eq_refl eq_refl eq_refl eq_refl).
Defined.

(** * The payment flow and the payment list *)

(** The flow reads only the amount and the chosen token of the form. *)
Lemma submitFlow_reads (p : Props) (publicKey : PublicKey) (w : World) (f g : Form.t) :
  Form.amount f = Form.amount g ->
  Form.selectedToken f = Form.selectedToken g ->
  submitFlow p publicKey w f = submitFlow p publicKey w g.
Proof.
  intros Ha Hs. unfold submitFlow, selectedTokenInfo. now rewrite Ha, Hs.
Qed.

Ltac bind_cases :=
  repeat match goal with
  | |- context [bind ?c _] => destruct c; cbn [bind]
  end.

Lemma submitFlow_completed (p : Props) (publicKey : PublicKey) (w : World)
    (f : Form.t) (payment : Payment) :
  submitFlow p publicKey w f = Ok payment ->
  status payment = completed /\
  merchantId payment = merchantAddress p /\
  customerWallet payment = Some publicKey.
Proof.
  unfold submitFlow, executeSwap.
  destruct (negb _); cbn [bind]; bind_cases;
    intros H; try discriminate H; injection H as <-; repeat split.
Qed.

(** The outcome of a submission that passes the guards. *)
Lemma handleSubmit_flow (p : Props) (publicKey : PublicKey) (w : World)
    (f : Form.t) (q : Quote) :
  Form.quote f = Some q ->
  exceededBalance f = None ->
  handleSubmit p (Some publicKey) w f
  = let g := Form.setPaymentStatus FormStatus.processing
               (Form.setSuccess false (Form.setError None
                  (Form.setIsProcessing true f))) in
    match submitFlow p publicKey w f with
    | Ok payment =>
        (Form.setIsProcessing false
           (Form.setSuccess true (Form.setPaymentStatus FormStatus.completed g)),
         [payment])
    | Throw _ =>
        (Form.setIsProcessing false
           (Form.setPaymentStatus FormStatus.failed
              (Form.setError (Some PaymentFailed) g)), [])
    end.
Proof.
  intros Hq Hb. unfold handleSubmit. rewrite Hq, Hb. cbv zeta.
  now rewrite (submitFlow_reads p publicKey w _ f).
Qed.

(** A submission refused by a guard hands over nothing and leaves the
    status of the form as it was. *)
Lemma handleSubmit_refused (p : Props) (publicKey : option PublicKey) (w : World)
    (f : Form.t) :
  publicKey = None \/ Form.quote f = None \/ is_Some (exceededBalance f) ->
  (handleSubmit p publicKey w f).2 = [] /\
  Form.paymentStatus (handleSubmit p publicKey w f).1 = Form.paymentStatus f.
Proof.
  unfold handleSubmit. intros [->|[H|[b H]]].
  - now split.
  - rewrite H. destruct publicKey; now split.
  - rewrite H. destruct publicKey; [destruct (Form.quote f)|]; now split.
Qed.

Lemma step_held (a : App) (e : Event) (x : Payment) :
  held (step a e) x -> held a x \/ handed [e] x.
Proof.
  unfold held, handed. destruct e as [|i out]; cbn [step].
  - destruct (inflight a) as [|c rest] eqn:Hfl; [|rewrite <- Hfl; now left].
    cbn [payments inflight]. intros [H|(closed & Hc & Hx)]; [now left; left|].
    apply list_elem_of_singleton in Hc as ->. now left; left.
  - destruct (inflight a !! i) as [closed|] eqn:Hi; [|now left].
    cbn [payments inflight]. intros [H|(c & Hc & Hx)].
    + destruct out as [|payment rest]; [now left; left|].
      unfold handlePaymentComplete in H.
      apply elem_of_app in H as [H|H].
      * left. right. exists closed. split; [|assumption].
        eapply list_elem_of_lookup_2, Hi.
      * apply list_elem_of_singleton in H as ->.
        right. exists i, (payment :: rest). split; apply elem_of_cons; now left.
    + left. right. exists c. split; [|assumption].
      eapply list_elem_of_delete_inv, Hc.
Qed.

Lemma run_held (es : list Event) (a : App) (x : Payment) :
  held (run a es) x -> held a x \/ handed es x.
Proof.
  revert a. induction es as [|e es IH]; intros a; cbn [run foldl].
  - now left.
  - intros H. apply IH in H as [H|(i & out & Hin & Hx)].
    + apply step_held in H as [H|(i & out & Hin & Hx)]; [now left|].
      apply list_elem_of_singleton in Hin as <-.
      right. exists i, out. split; [apply elem_of_cons; now left|assumption].
    + right. exists i, out. split; [apply elem_of_cons; now right|assumption].
Qed.

(** C2, refuted as stated: a payment flow that fails (here the cluster
    rejects the blockhash request) ends in the status [failed] and hands no
    Payment record to the payment list. *)
Lemma failed_flow_creates_no_payment :
  submitFlow merchantProps customer unreachable
    (quotedForm (mint USDC) 10.5%float (Some 120%float)) = Throw RpcError /\
  Form.paymentStatus
    (handleSubmit merchantProps (Some customer) unreachable
       (quotedForm (mint USDC) 10.5%float (Some 120%float))).1 = FormStatus.failed /\
  (handleSubmit merchantProps (Some customer) unreachable
     (quotedForm (mint USDC) 10.5%float (Some 120%float))).2 = [].
Proof. repeat split. Qed.

(** C2, amended. A submission that passes the guards creates a Payment
    record exactly when its flow succeeds: then one record, with status
    [completed], is handed to the payment list and the form ends in
    [completed]; when the flow fails no record is created and the form
    ends in [failed]. No record is ever updated after its creation: every
    record the list holds at any time is one the application started with
    or one a submission handed over, unchanged. *)
Theorem payment_created_on_success_only (p : Props) (publicKey : PublicKey)
    (w : World) (f : Form.t) (q : Quote) :
  Form.quote f = Some q ->
  exceededBalance f = None ->
  ((exists payment,
      submitFlow p publicKey w f = Ok payment /\
      status payment = completed /\
      (handleSubmit p (Some publicKey) w f).2 = [payment] /\
      Form.paymentStatus (handleSubmit p (Some publicKey) w f).1 = FormStatus.completed)
   \/
   (exists e,
      submitFlow p publicKey w f = Throw e /\
      (handleSubmit p (Some publicKey) w f).2 = [] /\
      Form.paymentStatus (handleSubmit p (Some publicKey) w f).1 = FormStatus.failed))
  /\
  (forall (a : App) (es : list Event) (x : Payment),
     x ∈ payments (run a es) -> held a x \/ handed es x).
Proof.
  intros Hq Hb. split.
  - rewrite (handleSubmit_flow p publicKey w f q Hq Hb). cbv zeta.
    destruct (submitFlow p publicKey w f) as [payment|e] eqn:Hflow.
    + left. exists payment. repeat split.
      now apply (submitFlow_completed p publicKey w f).
    + right. exists e. repeat split.
  - intros a es x Hx. apply run_held. now left.
Qed.

Lemma payment_created_on_success_only_witness :
  ((exists payment,
      submitFlow shop customer (reachable true)
        (quotedForm (mint USDC) 10.5%float (Some 120%float)) = Ok payment /\
      status payment = completed /\
      (handleSubmit shop (Some customer) (reachable true)
         (quotedForm (mint USDC) 10.5%float (Some 120%float))).2 = [payment] /\
      Form.paymentStatus
        (handleSubmit shop (Some customer) (reachable true)
           (quotedForm (mint USDC) 10.5%float (Some 120%float))).1
      = FormStatus.completed)
   \/
   (exists e,
      submitFlow shop customer (reachable true)
        (quotedForm (mint USDC) 10.5%float (Some 120%float)) = Throw e /\
      (handleSubmit shop (Some customer) (reachable true)
         (quotedForm (mint USDC) 10.5%float (Some 120%float))).2 = [] /\
      Form.paymentStatus
        (handleSubmit shop (Some customer) (reachable true)
           (quotedForm (mint USDC) 10.5%float (Some 120%float))).1
      = FormStatus.failed))
  /\
  (forall (a : App) (es : list Event) (x : Payment),
     x ∈ payments (run a es) -> held a x \/ handed es x).
Proof.
  assert (Hb : exceededBalance (quotedForm (mint USDC) 10.5%float (Some 120%float)) = None)
    by (vm_compute; reflexivity).
  exact (payment_created_on_success_only shop customer (reachable true)
           (quotedForm (mint USDC) 10.5%float (Some 120%float)) _ eq_refl Hb).
Defined.

(** A handler that closed over the current list appends to it, and every
    earlier record keeps its place. *)
Lemma settle_current_appends (a : App) (i : nat) (payment : Payment) :
  inflight a !! i = Some (payments a) ->
  payments (step a (Settle i [payment])) = payments a ++ [payment] /\
  forall k x, payments a !! k = Some x ->
    payments (step a (Settle i [payment])) !! k = Some x.
Proof.
  intros Hi. cbn [step]. rewrite Hi. cbn [payments]. unfold handlePaymentComplete.
  split; [reflexivity|]. intros k x Hk. now apply lookup_app_l_Some.
Qed.

(** With a single submission under way, recording appends. *)
Lemma lone_submission_appends (a : App) (payment : Payment) :
  inflight a = [] ->
  payments (run a [Submit; Settle 0 [payment]]) = payments a ++ [payment].
Proof.
  intros Hi. cbn [run foldl].
  destruct (settle_current_appends (step a Submit) 0 payment) as [H _].
  { cbn [step]. rewrite Hi. reflexivity. }
  rewrite H. cbn [step]. now rewrite Hi.
Qed.

(** Between events the handler under way holds the current list. *)
Lemma step_consistent (a : App) (e : Event) : consistent a -> consistent (step a e).
Proof.
  unfold consistent. intros [Hi|Hi]; destruct e as [|i out]; cbn [step]; rewrite Hi.
  - right. reflexivity.
  - cbn. now left.
  - now right.
  - destruct i as [|i]; cbn; [left; reflexivity|now right].
Qed.

Lemma run_consistent (es : list Event) (a : App) : consistent a -> consistent (run a es).
Proof.
  revert a. induction es as [|e es IH]; intros a Ha; cbn [run foldl]; [assumption|].
  apply IH. now apply step_consistent.
Qed.

(** An event changes the list by appending, if at all. *)
Lemma step_extends (a : App) (e : Event) :
  consistent a -> payments a `prefix_of` payments (step a e).
Proof.
  unfold consistent. intros [Hi|Hi]; destruct e as [|i out]; cbn [step]; rewrite Hi;
    try reflexivity.
  - destruct i as [|i]; cbn; [|reflexivity].
    destruct out as [|payment rest]; [reflexivity|].
    unfold handlePaymentComplete. now apply prefix_app_r.
Qed.

Lemma run_extends (es : list Event) (a : App) :
  consistent a -> payments a `prefix_of` payments (run a es).
Proof.
  revert a. induction es as [|e es IH]; intros a Ha; cbn [run foldl]; [reflexivity|].
  etrans; [apply (step_extends a e Ha)|]. apply IH. now apply step_consistent.
Qed.

(** C10. Recording a completed payment appends the new record at the end of
    the payment list, and every record recorded before stays where it is,
    unchanged, whatever the application goes through: no event removes or
    alters a record of the list. *)
Theorem recording_appends_and_keeps (a : App) (es : list Event) :
  consistent a ->
  (forall i payment,
     is_Some (inflight (run a es) !! i) ->
     payments (step (run a es) (Settle i [payment]))
     = payments (run a es) ++ [payment]) /\
  (forall e k x,
     payments (run a es) !! k = Some x ->
     payments (step (run a es) e) !! k = Some x) /\
  (forall k x,
     payments a !! k = Some x -> payments (run a es) !! k = Some x).
Proof.
  intros Ha. pose proof (run_consistent es a Ha) as Hb. repeat split.
  - intros i payment [closed Hi].
    apply settle_current_appends.
    destruct Hb as [Hb|Hb]; rewrite Hb in Hi.
    + discriminate Hi.
    + rewrite Hb. destruct i as [|i]; [reflexivity|discriminate Hi].
  - intros e k x Hk.
    destruct (step_extends (run a es) e Hb) as [more ->].
    now apply lookup_app_l_Some.
  - intros k x Hk.
    destruct (run_extends es a Ha) as [more ->].
    now apply lookup_app_l_Some.
Qed.

Lemma recording_appends_and_keeps_witness :
  (forall i payment,
     is_Some (inflight (run startedApp [Submit]) !! i) ->
     payments (step (run startedApp [Submit]) (Settle i [payment]))
     = payments (run startedApp [Submit]) ++ [payment]) /\
  (forall e k x,
     payments (run startedApp [Submit]) !! k = Some x ->
     payments (step (run startedApp [Submit]) e) !! k = Some x) /\
  (forall k x,
     payments startedApp !! k = Some x ->
     payments (run startedApp [Submit]) !! k = Some x).
Proof.
  exact (recording_appends_and_keeps startedApp [Submit] (or_introl eq_refl)).
Defined.

(** * Further properties: the registry and the rates *)

(** X1. Looking a mint up in the registry returns a token exactly when that
    token is one of the list [getAllTokens] returns and carries the mint:
    the five mints are pairwise distinct, so no entry hides another. *)
Theorem find_by_mint_exact (m : string) (t : TokenInfo) :
  find_by_mint m = Some t <->
  exists tokens, getAllTokens = Ok tokens /\ In t tokens /\ mint t = m.
Proof.
  split.
  - intros H. exists (Object_values TOKENS). split; [reflexivity|].
    unfold find_by_mint in H. apply List.find_some in H as [Hin Heq].
    split; [assumption|]. now apply String.eqb_eq.
  - intros (tokens & [= <-] & Hin & <-). now apply find_by_mint_registered.
Qed.

Lemma entry_unlisted (a : string) :
  ~ In a ["SOL"; "USDC"; "USDT"; "BONK"] ->
  forall c, entry a c = None /\ entry c a = None.
Proof.
  intros Ha c. split.
  - destruct (entry a c) as [r|] eqn:H; [|reflexivity].
    exfalso. apply Ha. apply entry_cases in H. cbn in H. cbn.
    repeat (destruct H as [H|H]; [injection H as <- _ _; tauto|]). destruct H.
  - destruct (entry c a) as [r|] eqn:H; [|reflexivity].
    exfalso. apply Ha. apply entry_cases in H. cbn in H. cbn.
    repeat (destruct H as [H|H]; [injection H as _ <- _; tauto|]). destruct H.
Qed.

Lemma rate_of_unlisted (a b : string) :
  ~ In a ["SOL"; "USDC"; "USDT"; "BONK"] ->
  getMockExchangeRate a b = 1%float /\ getMockExchangeRate b a = 1%float.
Proof.
  intros Ha. rewrite !getMockExchangeRate_by_spec. unfold rate_by_spec.
  destruct (entry_unlisted a Ha b) as [-> ->].
  destruct (entry_unlisted a Ha "USDC") as [-> ->].
  split; [reflexivity|]. now destruct (entry b "USDC").
Qed.

(** X2. A registry symbol without a row in the rate table (JUP is the one)
    is converted at the rate 1 into every registry symbol, and every
    registry symbol into it: the fallback prices it 1:1 against SOL, the
    stablecoins and BONK alike. *)
Theorem unlisted_symbol_rate_one (a b : string) :
  In a symbols ->
  In b symbols ->
  ~ In a ["SOL"; "USDC"; "USDT"; "BONK"] ->
  getMockExchangeRate a b = 1%float /\ getMockExchangeRate b a = 1%float.
Proof. intros _ _. apply rate_of_unlisted. Qed.

Lemma unlisted_symbol_rate_one_witness :
  getMockExchangeRate "JUP" "SOL" = 1%float /\ getMockExchangeRate "SOL" "JUP" = 1%float.
Proof.
  assert (Ha : In "JUP" symbols) by (cbn; tauto).
  assert (Hb : In "SOL" symbols) by (cbn; tauto).
  assert (Hn : ~ In "JUP" ["SOL"; "USDC"; "USDT"; "BONK"]).
  { cbn. intros [H|[H|[H|[H|[]]]]]; discriminate H. }
  exact (unlisted_symbol_rate_one "JUP" "SOL" Ha Hb Hn).
Defined.

(** X3. Whatever pair of registry symbols is asked, the rate is a finite
    number above zero: no path of the resolution yields 0, an infinity or
    NaN. *)
Theorem rate_positive_finite (a b : string) :
  In a symbols ->
  In b symbols ->
  positive_finite (getMockExchangeRate a b) = true.
Proof.
  unfold symbols. cbn. intros Ha Hb.
  repeat (destruct Ha as [<-|Ha]; [| ]); try destruct Ha;
    repeat (destruct Hb as [<-|Hb]; [| ]); try destruct Hb;
    vm_compute; reflexivity.
Qed.

Lemma rate_positive_finite_witness :
  positive_finite (getMockExchangeRate "BONK" "BONK") = true.
Proof.
  assert (H : In "BONK" symbols) by (cbn; tauto).
  exact (rate_positive_finite "BONK" "BONK" H H).
Defined.

(** * Further properties: routes *)

Lemma symbol_of_mint_registered (t : TokenInfo) :
  registered t -> symbol_of_mint (mint t) = symbol t.
Proof.
  intros Ht. unfold symbol_of_mint. rewrite (find_by_mint_registered _ Ht).
  revert Ht. unfold registered. cbn.
  intros H. repeat (destruct H as [<-|H]; [reflexivity|]). destruct H.
Qed.

(** X4. For registry tokens A and B, [getRoutes], [getQuote] and
    [executeSwap] price the pair with one and the same rate: the route's
    output is amount x rate, the quote's output amount is the floor of the
    route's output scaled by 10^decimals of B, and the swap's output is the
    route's output times (1 - slippageBps / 10000). *)
Theorem routes_quote_swap_agree (A B : TokenInfo) (amount slippageBps : number)
    (rnd : string) :
  registered A ->
  registered B ->
  exists route q r,
    getRoutes (mint A) (mint B) amount slippageBps rnd = Ok [route] /\
    getQuote A B amount rnd = Ok q /\
    executeSwap A B amount slippageBps rnd = Ok r /\
    Route.inAmount route = amount /\
    Route.outAmount route
    = (amount * getMockExchangeRate (symbol A) (symbol B))%float /\
    outAmount q = Math_floor (Route.outAmount route * pow10 (decimals B))%float /\
    outputAmount r = (Route.outAmount route * (1 - slippageBps / 10000))%float.
Proof.
  intros HA HB. unfold getRoutes, getQuote, executeSwap.
  rewrite (symbol_of_mint_registered _ HA), (symbol_of_mint_registered _ HB).
  do 3 eexists. repeat split.
Qed.

Lemma routes_quote_swap_agree_witness :
  exists route q r,
    getRoutes (mint SOL) (mint USDC) 1%float 50%float "k3j9x0a7" = Ok [route] /\
    getQuote SOL USDC 1%float "k3j9x0a7" = Ok q /\
    executeSwap SOL USDC 1%float 50%float "k3j9x0a7" = Ok r /\
    Route.inAmount route = 1%float /\
    Route.outAmount route
    = (1 * getMockExchangeRate (symbol SOL) (symbol USDC))%float /\
    outAmount q = Math_floor (Route.outAmount route * pow10 (decimals USDC))%float /\
    outputAmount r = (Route.outAmount route * (1 - 50 / 10000))%float.
Proof.
  assert (HA : registered SOL) by (unfold registered; cbn; tauto).
  assert (HB : registered USDC) by (unfold registered; cbn; tauto).
  exact (routes_quote_swap_agree SOL USDC 1%float 50%float "k3j9x0a7" HA HB).
Defined.

(** X5. [getRoutes] does not fail on a mint the registry does not know: it
    looks the rate up under the empty symbol and routes the amount at the
    rate 1, whatever the other mint is. *)
Theorem routes_of_unknown_mint (inputMint outputMint : string)
    (amount slippageBps : number) (rnd : string) :
  find_by_mint inputMint = None \/ find_by_mint outputMint = None ->
  exists route,
    getRoutes inputMint outputMint amount slippageBps rnd = Ok [route] /\
    Route.outAmount route = (amount * 1)%float /\
    Route.inAmount route = amount.
Proof.
  assert (Hn : ~ In "" ["SOL"; "USDC"; "USDT"; "BONK"]).
  { cbn. intros [H|[H|[H|[H|[]]]]]; discriminate H. }
  intros H. unfold getRoutes. eexists. split; [reflexivity|].
  cbn [Route.outAmount Route.inAmount]. split; [|reflexivity].
  destruct H as [H|H]; unfold symbol_of_mint at 1 2; rewrite H.
  - now rewrite (proj1 (rate_of_unlisted "" _ Hn)).
  - now rewrite (proj2 (rate_of_unlisted "" _ Hn)).
Qed.

Lemma routes_of_unknown_mint_witness :
  exists route,
    getRoutes "not-a-mint" (mint USDC) 3%float 50%float "k3j9x0a7" = Ok [route] /\
    Route.outAmount route = (3 * 1)%float /\
    Route.inAmount route = 3%float.
Proof.
  exact (routes_of_unknown_mint "not-a-mint" (mint USDC) 3%float 50%float "k3j9x0a7"
           (or_introl eq_refl)).
Defined.

(** * Further properties: the builder and the balances *)





(** X8. [getTokenBalance] on a fungible registry token whose holding
    address derives: a holding account that does not exist reads as the
    balance 0, not as an error, and an existing one as its amount divided
    by 10^decimals; a mint outside the registry is an error before any
    request is made. *)
Theorem token_balance_of_holding_account (w : World) (l : Ledger)
    (walletAddress tokenAccount : PublicKey) (t : TokenInfo) :
  registered t ->
  mint t <> mint SOL ->
  isPublicKey w (mint t) = true ->
  getAssociatedTokenAddress w (mint t) walletAddress = Some tokenAccount ->
  getTokenBalance w l walletAddress (mint t)
  = Some (match tokenAmount l tokenAccount with
          | Some held => (held / pow10 (decimals t))%float
          | None => 0%float
          end) /\
  (forall unknown w' l',
     find_by_mint unknown = None ->
     getTokenBalance w' l' walletAddress unknown = None).
Proof.
  intros Ht Hne Hkey Hata. split.
  - unfold getTokenBalance.
    rewrite (find_by_mint_registered _ Ht), (mint_SOL_only _ Ht Hne), Hkey, Hata.
    now destruct (tokenAmount l tokenAccount).
  - intros unknown w' l' Hnone. unfold getTokenBalance. now rewrite Hnone.
Qed.

Lemma token_balance_of_holding_account_witness :
  getTokenBalance (reachable false) emptyLedger customer (mint USDC) = Some 0%float /\
  (forall unknown w' l',
     find_by_mint unknown = None ->
     getTokenBalance w' l' customer unknown = None).
Proof.
  assert (Ht : registered USDC) by (unfold registered; cbn; tauto).
  assert (Hne : mint USDC <> mint SOL) by discriminate.
  exact (token_balance_of_holding_account (reachable false) emptyLedger customer
           (customer +:+ "/" +:+ mint USDC) USDC Ht Hne eq_refl eq_refl).
Defined.

(** * Further properties: the payment form *)

(** What a successful flow went through, step by step. *)
Lemma submitFlow_steps (p : Props) (publicKey : PublicKey) (w : World)
    (f : Form.t) (payment : Payment) :
  submitFlow p publicKey w f = Ok payment ->
  let paid :=
    if String.eqb (Form.selectedToken f) (preferredToken p) then Form.amount f
    else (Form.amount f
          * getMockExchangeRate (symbol (selectedTokenInfo f))
              (symbol (preferredTokenInfo p))
          * (1 - 50 / 10000))%float in
  exists tx sig,
    isPublicKey w (merchantAddress p) = true /\
    createPaymentTransaction w paid (preferredToken p) publicKey (merchantAddress p)
    = Ok tx /\
    mockSendTransaction w tx = Ok sig /\
    payment
    = {| id := "payment-" +:+ pretty (clockAtSubmit w);
         amount := paid;
         token := preferredToken p;
         status := completed;
         timestamp := clockAtRecord w;
         merchantId := merchantAddress p;
         customerWallet := Some publicKey;
         txSignature := Some sig |}.
Proof.
  unfold submitFlow, executeSwap, new_PublicKey.
  destruct (String.eqb_spec (Form.selectedToken f) (preferredToken p)) as [Heq|Hne];
    cbn [negb bind outputAmount];
    destruct (isPublicKey w (merchantAddress p)); cbn [bind]; try discriminate.
  - rewrite Heq.
    destruct (createPaymentTransaction w (Form.amount f) (preferredToken p)
                publicKey (merchantAddress p)) as [tx|] eqn:Htx;
      cbn [bind]; [|discriminate].
    destruct (mockSendTransaction w tx) as [sig|] eqn:Hsig; cbn [bind]; [|discriminate].
    intros [= <-]. exists tx, sig. now repeat split.
  - destruct (createPaymentTransaction w _ (preferredToken p)
                publicKey (merchantAddress p)) as [tx|] eqn:Htx;
      cbn [bind]; [|discriminate].
    destruct (mockSendTransaction w tx) as [sig|] eqn:Hsig; cbn [bind]; [|discriminate].
    intros [= <-]. exists tx, sig. now repeat split.
Qed.

(** X9. A payment is recorded only for a transaction that was built and
    sent: the record is in the merchant's preferred token, its amount is
    the entered amount when no swap is needed and amount x rate x
    (1 - 50 / 10000) after a swap, and a transaction for exactly that
    amount and token, from the customer to the merchant's address, was
    built, whose mock signature the record carries. *)
Theorem recorded_payment_matches_transaction (p : Props) (publicKey : PublicKey)
    (w : World) (f : Form.t) (payment : Payment) :
  submitFlow p publicKey w f = Ok payment ->
  token payment = preferredToken p /\
  amount payment
  = (if String.eqb (Form.selectedToken f) (preferredToken p) then Form.amount f
     else (Form.amount f
           * getMockExchangeRate (symbol (selectedTokenInfo f))
               (symbol (preferredTokenInfo p))
           * (1 - 50 / 10000))%float) /\
  exists tx sig,
    createPaymentTransaction w (amount payment) (token payment) publicKey
      (merchantAddress p) = Ok tx /\
    mockSendTransaction w tx = Ok sig /\
    txSignature payment = Some sig.
Proof.
  intros H. apply submitFlow_steps in H as (tx & sig & _ & Htx & Hsig & ->).
  cbn [token amount txSignature]. repeat split. now exists tx, sig.
Qed.

Lemma recorded_payment_matches_transaction_witness :
  exists payment,
    submitFlow shop customer (reachable true)
      (quotedForm (mint SOL) 1%float (Some 5.5%float)) = Ok payment /\
    token payment = mint USDC /\
    amount payment = 149.49875%float /\
    exists tx sig,
      createPaymentTransaction (reachable true) (amount payment) (token payment)
        customer receiver = Ok tx /\
      mockSendTransaction (reachable true) tx = Ok sig /\
      txSignature payment = Some sig.
Proof.
  assert (H : submitFlow shop customer (reachable true)
                (quotedForm (mint SOL) 1%float (Some 5.5%float)) = Ok firstPayment)
    by (vm_compute; reflexivity).
  exists firstPayment. split; [exact H|].
  pose proof (recorded_payment_matches_transaction shop customer
                (reachable true) (quotedForm (mint SOL) 1%float (Some 5.5%float))
                firstPayment H) as (Ht & _ & Htx).
  split; [exact Ht|]. split; [reflexivity|exact Htx].
Defined.

(** X10. The identifier of a recorded payment is made from the clock at the
    submission alone: two recorded payments have the same identifier
    exactly when their submissions read the same millisecond, whoever pays
    and whatever is paid. *)
Theorem payment_ids_equal_iff_same_clock (p p' : Props) (publicKey publicKey' : PublicKey)
    (w w' : World) (f f' : Form.t) (payment payment' : Payment) :
  submitFlow p publicKey w f = Ok payment ->
  submitFlow p' publicKey' w' f' = Ok payment' ->
  id payment = id payment' <-> clockAtSubmit w = clockAtSubmit w'.
Proof.
  intros H H'.
  apply submitFlow_steps in H as (tx & sig & _ & _ & _ & ->).
  apply submitFlow_steps in H' as (tx' & sig' & _ & _ & _ & ->).
  cbn [id]. split.
  - intros Hid. cbn in Hid. injection Hid as Hid. now apply (inj pretty).
  - now intros ->.
Qed.

Lemma payment_ids_equal_iff_same_clock_witness :
  id firstPayment = id secondPayment
  <-> clockAtSubmit (reachable true) = clockAtSubmit (later (reachable true)).
Proof.
  assert (H1 : submitFlow shop customer (reachable true)
                 (quotedForm (mint SOL) 1%float (Some 5.5%float)) = Ok firstPayment)
    by (vm_compute; reflexivity).
  assert (H2 : submitFlow shop customer (later (reachable true))
                 (quotedForm (mint USDC) 10.5%float (Some 120%float)) = Ok secondPayment)
    by (vm_compute; reflexivity).
  exact (payment_ids_equal_iff_same_clock _ _ _ _ _ _ _ _ _ _ H1 H2).
Defined.

(** X11. [handleSubmit] never touches the amount, the chosen token, the
    quote or the balance of the form, and it hands over at most one
    payment; when it hands one over, the form shows success: status
    [completed], no error, not processing. *)
Theorem handleSubmit_frame (p : Props) (publicKey : option PublicKey) (w : World)
    (f : Form.t) :
  Form.amount (handleSubmit p publicKey w f).1 = Form.amount f /\
  Form.selectedToken (handleSubmit p publicKey w f).1 = Form.selectedToken f /\
  Form.quote (handleSubmit p publicKey w f).1 = Form.quote f /\
  Form.tokenBalance (handleSubmit p publicKey w f).1 = Form.tokenBalance f /\
  ((handleSubmit p publicKey w f).2 = [] \/
   exists payment,
     (handleSubmit p publicKey w f).2 = [payment] /\
     Form.success (handleSubmit p publicKey w f).1 = true /\
     Form.paymentStatus (handleSubmit p publicKey w f).1 = FormStatus.completed /\
     Form.error (handleSubmit p publicKey w f).1 = None /\
     Form.isProcessing (handleSubmit p publicKey w f).1 = false).
Proof.
  unfold handleSubmit.
  destruct publicKey as [k|]; [|repeat split; now left].
  destruct (Form.quote f) as [q|] eqn:Hq; [|repeat split; cbn; auto].
  destruct (exceededBalance f) as [b|]; [repeat split; cbn; auto|].
  cbv zeta. destruct (submitFlow p k w _) as [payment|e]; cbn.
  - repeat split; auto. right. exists payment. now repeat split.
  - repeat split; auto.
Qed.

(** X12. While the submit button is enabled, a submission is never turned
    down for a missing wallet or a missing quote: either the amount exceeds
    the fetched balance, which is reported and nothing else changes, or the
    flow runs and the form ends in [completed] or [failed], not
    processing. *)
Theorem enabled_button_reaches_flow (p : Props) (publicKey : option PublicKey)
    (w : World) (f : Form.t) :
  submitDisabled publicKey f = false ->
  (exists balance,
     exceededBalance f = Some balance /\
     handleSubmit p publicKey w f
     = (Form.setError
          (Some (InsufficientBalance balance (symbol (selectedTokenInfo f)))) f, []))
  \/
  (exceededBalance f = None /\
   Form.isProcessing (handleSubmit p publicKey w f).1 = false /\
   (Form.paymentStatus (handleSubmit p publicKey w f).1 = FormStatus.completed \/
    Form.paymentStatus (handleSubmit p publicKey w f).1 = FormStatus.failed)).
Proof.
  unfold submitDisabled, handleSubmit. intros H.
  destruct publicKey as [k|]; [|now rewrite orb_true_r in H].
  destruct (Form.quote f) as [q|]; [|now rewrite orb_true_r in H].
  destruct (exceededBalance f) as [b|].
  - left. now exists b.
  - right. split; [reflexivity|]. cbv zeta.
    destruct (submitFlow p k w _); cbn; auto.
Qed.

Lemma enabled_button_reaches_flow_witness :
  (exists balance,
     exceededBalance (quotedForm (mint SOL) 9%float (Some 5.5%float)) = Some balance /\
     handleSubmit merchantProps (Some customer) (reachable true)
       (quotedForm (mint SOL) 9%float (Some 5.5%float))
     = (Form.setError
          (Some (InsufficientBalance balance
                   (symbol (selectedTokenInfo
                              (quotedForm (mint SOL) 9%float (Some 5.5%float))))))
          (quotedForm (mint SOL) 9%float (Some 5.5%float)), []))
  \/
  (exceededBalance (quotedForm (mint SOL) 9%float (Some 5.5%float)) = None /\
   Form.isProcessing
     (handleSubmit merchantProps (Some customer) (reachable true)
        (quotedForm (mint SOL) 9%float (Some 5.5%float))).1 = false /\
   (Form.paymentStatus
      (handleSubmit merchantProps (Some customer) (reachable true)
         (quotedForm (mint SOL) 9%float (Some 5.5%float))).1 = FormStatus.completed \/
    Form.paymentStatus
      (handleSubmit merchantProps (Some customer) (reachable true)
         (quotedForm (mint SOL) 9%float (Some 5.5%float))).1 = FormStatus.failed)).
Proof.
  assert (H : submitDisabled (Some customer)
                (quotedForm (mint SOL) 9%float (Some 5.5%float)) = false)
    by (vm_compute; reflexivity).
  exact (enabled_button_reaches_flow merchantProps (Some customer) (reachable true)
           (quotedForm (mint SOL) 9%float (Some 5.5%float)) H).
Defined.

(** X13. The quote effect never changes what the customer entered nor the
    balance, it never takes a quote away, and for an amount that is not
    above zero it does nothing at all: after an unparsable or zero input,
    which the amount control stores as 0, the quote of the earlier amount
    stays on the form. *)
Theorem fetchQuote_keeps_entries_and_quote (p : Props) (rnd : string) (f : Form.t)
    (parsed : number) :
  Form.amount (fetchQuote p rnd f) = Form.amount f /\
  Form.selectedToken (fetchQuote p rnd f) = Form.selectedToken f /\
  Form.tokenBalance (fetchQuote p rnd f) = Form.tokenBalance f /\
  Form.isProcessing (fetchQuote p rnd f) = Form.isProcessing f /\
  Form.success (fetchQuote p rnd f) = Form.success f /\
  (is_Some (Form.quote f) -> is_Some (Form.quote (fetchQuote p rnd f))) /\
  (gt (Form.amount f) 0%float = false -> fetchQuote p rnd f = f) /\
  (truthy parsed = false ->
   fetchQuote p rnd (onAmountChange parsed f) = setAmount 0%float f /\
   Form.quote (fetchQuote p rnd (onAmountChange parsed f)) = Form.quote f).
Proof.
  assert (Hstill : forall g, gt (Form.amount g) 0%float = false -> fetchQuote p rnd g = g).
  { intros g Hg. unfold fetchQuote. now rewrite Hg. }
  assert (Hframe :
    Form.amount (fetchQuote p rnd f) = Form.amount f /\
    Form.selectedToken (fetchQuote p rnd f) = Form.selectedToken f /\
    Form.tokenBalance (fetchQuote p rnd f) = Form.tokenBalance f /\
    Form.isProcessing (fetchQuote p rnd f) = Form.isProcessing f /\
    Form.success (fetchQuote p rnd f) = Form.success f /\
    (is_Some (Form.quote f) -> is_Some (Form.quote (fetchQuote p rnd f)))).
  { unfold fetchQuote.
    destruct (gt (Form.amount f) 0%float && truthy_string (Form.selectedToken f)
              && truthy_string (preferredToken p)); [|now repeat split].
    destruct (String.eqb (Form.selectedToken f) (preferredToken p)).
    - repeat split. intros _. eexists. reflexivity.
    - unfold getQuote. repeat split. intros _. eexists. reflexivity. }
  destruct Hframe as (H1 & H2 & H3 & H4 & H5 & H6).
  repeat split; try assumption.
  - now apply Hstill.
  - unfold onAmountChange. rewrite H. now apply Hstill.
  - unfold onAmountChange. rewrite H. now rewrite Hstill.
Qed.

(** X14. After "Make Another Payment" the form is idle, shows no success
    and asks for the amount 1, and the quote effect then stores a quote for
    that amount, whatever quote the form held before. *)
Theorem resetForm_then_quote (p : Props) (rnd : string) (f : Form.t) :
  truthy_string (Form.selectedToken f) = true ->
  truthy_string (preferredToken p) = true ->
  Form.amount (resetForm f) = 1%float /\
  Form.success (resetForm f) = false /\
  Form.paymentStatus (resetForm f) = FormStatus.idle /\
  Form.quote (resetForm f) = Form.quote f /\
  exists q,
    Form.quote (fetchQuote p rnd (resetForm f)) = Some q /\
    inAmount q = (1 * pow10 (decimals (selectedTokenInfo f)))%float /\
    Form.paymentStatus (fetchQuote p rnd (resetForm f)) = FormStatus.idle.
Proof.
  intros Hs Hp. repeat split.
  assert (Hpos : gt (Form.amount (resetForm f)) 0%float = true)
    by (vm_compute; reflexivity).
  destruct (decide (Form.selectedToken (resetForm f) = preferredToken p)) as [Heq|Hne].
  - destruct (fetchQuote_same p rnd (resetForm f)) as (q & -> & _ & _ & Hin & _); auto.
    exists q. repeat split. exact Hin.
  - destruct (fetchQuote_swap p rnd (resetForm f)) as (q & Hq & ->); auto.
    injection Hq as <-. eexists. repeat split.
Qed.

Lemma resetForm_then_quote_witness :
  Form.amount (resetForm firstSubmission.1) = 1%float /\
  Form.success (resetForm firstSubmission.1) = false /\
  Form.paymentStatus (resetForm firstSubmission.1) = FormStatus.idle /\
  Form.quote (resetForm firstSubmission.1) = Form.quote firstSubmission.1 /\
  exists q,
    Form.quote (fetchQuote merchantProps "k3j9x0a7" (resetForm firstSubmission.1)) = Some q /\
    inAmount q = (1 * pow10 (decimals (selectedTokenInfo firstSubmission.1)))%float /\
    Form.paymentStatus (fetchQuote merchantProps "k3j9x0a7" (resetForm firstSubmission.1))
    = FormStatus.idle.
Proof.
  assert (Hs : truthy_string (Form.selectedToken firstSubmission.1) = true)
    by (vm_compute; reflexivity).
  exact (resetForm_then_quote merchantProps "k3j9x0a7" firstSubmission.1 Hs eq_refl).
Defined.

(** * Further properties: the payment list *)

Lemma round_appends (a : App) (o : option Payment) :
  inflight a = [] ->
  payments (run a [Submit; Settle 0 (option_list o)]) = payments a ++ option_list o /\
  inflight (run a [Submit; Settle 0 (option_list o)]) = [].
Proof.
  intros Hi. cbn [run foldl step]. cbn [inflight payments]. rewrite Hi. cbn.
  destruct o as [x|]; cbn; [easy|]. now rewrite app_nil_r.
Qed.

(** X15. When submissions do not overlap, each one ending before the next
    starts, the list after any number of them is the list before followed
    by the payments of the successful ones, in the order of submission; a
    failed submission leaves the list as it was. *)
Theorem sequential_submissions_accumulate (a : App) (outcomes : list (option Payment)) :
  inflight a = [] ->
  payments (run a (rounds outcomes)) = payments a ++ omap (fun o => o) outcomes /\
  inflight (run a (rounds outcomes)) = [].
Proof.
  revert a. induction outcomes as [|o outcomes IH]; intros a Hi.
  - cbn. now rewrite app_nil_r.
  - change (rounds (o :: outcomes))
      with ([Submit; Settle 0 (option_list o)] ++ rounds outcomes).
    unfold run. rewrite foldl_app. fold (run a [Submit; Settle 0 (option_list o)]).
    fold (run (run a [Submit; Settle 0 (option_list o)]) (rounds outcomes)).
    destruct (round_appends a o Hi) as [Hp Hi'].
    destruct (IH _ Hi') as [Hp' Hi''].
    split; [|assumption].
    rewrite Hp', Hp, <- app_assoc. f_equal. now destruct o.
Qed.

Lemma sequential_submissions_accumulate_witness :
  payments (run startedApp (rounds [Some firstPayment; None; Some secondPayment]))
  = payments startedApp ++ [firstPayment; secondPayment] /\
  inflight (run startedApp (rounds [Some firstPayment; None; Some secondPayment])) = [].
Proof.
  exact (sequential_submissions_accumulate startedApp
           [Some firstPayment; None; Some secondPayment] eq_refl).
Defined.

(** * Further properties: amounts and the configured shop *)



(** X17. The shop as [App.tsx] configures it, paid in USDC at its merchant
    address: where the library derives no holding address for that owner,
    no submission hands a payment over, whoever pays, whatever the form
    holds and whatever else the cluster answers; a submission that passes
    the guards ends in [failed]. *)
Theorem configured_shop_records_nothing (w : World) (publicKey : option PublicKey)
    (f : Form.t) :
  getAssociatedTokenAddress w (mint USDC) merchant_walletAddress = None ->
  (handleSubmit merchantProps publicKey w f).2 = [] /\
  (submitDisabled publicKey f = false ->
   exceededBalance f = None ->
   Form.paymentStatus (handleSubmit merchantProps publicKey w f).1 = FormStatus.failed).
Proof.
  intros Hoff.
  assert (Hbuild : forall amount sender,
    exists e, createPaymentTransaction w amount (mint USDC) sender merchant_walletAddress
              = Throw e).
  { intros amount sender. unfold createPaymentTransaction, new_PublicKey.
    destruct (getLatestBlockhash w); cbn [of_option bind]; [|eexists; reflexivity].
    change (String.eqb (mint USDC) (mint SOL)) with false. cbv iota.
    destruct (isPublicKey w (mint USDC)); cbn [bind]; [|eexists; reflexivity].
    destruct (getAssociatedTokenAddress w (mint USDC) sender);
      cbn [of_option bind]; [|eexists; reflexivity].
    rewrite Hoff. eexists. reflexivity. }
  assert (Hflow : forall k g, exists e, submitFlow merchantProps k w g = Throw e).
  { intros k g. unfold submitFlow, executeSwap, new_PublicKey.
    cbn [merchantProps merchantAddress preferredToken].
    destruct (String.eqb_spec (Form.selectedToken g) (mint USDC)) as [Heq|_];
      cbn [negb bind outputAmount];
      (destruct (isPublicKey w merchant_walletAddress); cbn [bind];
       [|eexists; reflexivity]).
    - rewrite Heq. destruct (Hbuild (Form.amount g) k) as [e ->]. eexists. reflexivity.
    - destruct (Hbuild (Form.amount g
                        * getMockExchangeRate (symbol (selectedTokenInfo g))
                            (symbol (preferredTokenInfo merchantProps))
                        * (1 - 50 / 10000))%float k) as [e ->].
      eexists. reflexivity. }
  unfold handleSubmit, submitDisabled.
  destruct publicKey as [k|].
  2:{ split; [reflexivity|]. intros H. now rewrite orb_true_r in H. }
  destruct (Form.quote f) as [q|].
  2:{ split; [reflexivity|]. intros H. now rewrite orb_true_r in H. }
  destruct (exceededBalance f) as [b|]; [split; [reflexivity|discriminate]|].
  cbv zeta.
  destruct (Hflow k (Form.setPaymentStatus FormStatus.processing
                       (Form.setSuccess false (Form.setError None
                          (Form.setIsProcessing true f))))) as [e ->].
  split; reflexivity.
Qed.

Lemma configured_shop_records_nothing_witness :
  (handleSubmit merchantProps (Some customer) (reachable true)
     (quotedForm (mint SOL) 1%float (Some 5.5%float))).2 = [] /\
  (submitDisabled (Some customer) (quotedForm (mint SOL) 1%float (Some 5.5%float)) = false ->
   exceededBalance (quotedForm (mint SOL) 1%float (Some 5.5%float)) = None ->
   Form.paymentStatus
     (handleSubmit merchantProps (Some customer) (reachable true)
        (quotedForm (mint SOL) 1%float (Some 5.5%float))).1 = FormStatus.failed).
Proof.
  exact (configured_shop_records_nothing (reachable true) (Some customer)
           (quotedForm (mint SOL) 1%float (Some 5.5%float)) eq_refl).
Defined.
